(** * DiscordTranslator: the message-relay handler of [main.py]

    A shallow embedding of [src/main.py]: the module-level configuration
    (lines 8-31) and [TranslationClient.on_message] (lines 50-132).

    The handler talks to five outside parties (googletrans, DeepL, the
    attachment CDN through aiohttp, the Discord REST API and the webhook).
    Each of them is an oracle threading an abstract world state; every call
    and every [print] is recorded, with its answer, in a trace.  Properties
    of "every execution" are properties of the trace for every world, every
    oracle and every message. *)

From Stdlib Require Import ZArith Ascii Lia.
From stdpp Require Import base strings list gmap pretty sorting.

Local Open Scope Z_scope.

(** ** Python values the program manipulates *)

(** The exception classes the handler's [except] clauses tell apart.
    Only subclasses of [Exception] are modelled: [KeyboardInterrupt],
    [SystemExit] and task cancellation derive from [BaseException] alone
    and are not errors of any step. *)
Inductive exc_class : Type :=
  | DeepLException          (* deepl.DeepLException itself *)
  | QuotaExceededException  (* deepl: subclass of DeepLException *)
  | ConnectionException     (* deepl: subclass of DeepLException *)
  | HTTPException           (* discord.errors.HTTPException itself *)
  | Forbidden               (* discord.errors: subclass of HTTPException *)
  | NotFound                (* discord.errors: subclass of HTTPException *)
  | ClientError             (* aiohttp.ClientError *)
  | ValueError
  | OtherException.         (* any other subclass of Exception *)

Definition exc_class_eqb (c d : exc_class) : bool :=
  match c, d with
  | DeepLException, DeepLException
  | QuotaExceededException, QuotaExceededException
  | ConnectionException, ConnectionException
  | HTTPException, HTTPException
  | Forbidden, Forbidden
  | NotFound, NotFound
  | ClientError, ClientError
  | ValueError, ValueError
  | OtherException, OtherException => true
  | _, _ => false
  end.

(** [issubclass c d], for the classes above. *)
Definition issubclass (c d : exc_class) : bool :=
  exc_class_eqb c d ||
  match c, d with
  | (QuotaExceededException | ConnectionException), DeepLException => true
  | (Forbidden | NotFound), HTTPException => true
  | _, _ => false
  end.

(** A raised exception: its class and what [str(e)] gives. *)
Record exn : Type := Exn { exn_class : exc_class; str : string }.

Definition isinstance (e : exn) (c : exc_class) : bool :=
  issubclass (exn_class e) c.

(** The result of a call that may raise. *)
Inductive outcome (A : Type) : Type :=
  | Ok (a : A)
  | Raise (e : exn).
Arguments Ok {A} a.
Arguments Raise {A} e.

Definition is_ok {A} (r : outcome A) : bool :=
  match r with Ok _ => true | Raise _ => false end.

Definition bytes : Type := list Byte.byte.

(** ** Data model (discord.py objects, as far as the handler reads them) *)

Record attachment : Type := Attachment {
  url : string;
  filename : string }.

Record user : Type := User {
  display_name : string;
  avatar : option string;        (* [author.avatar.url], or None *)
  default_avatar : string;       (* [author.default_avatar.url] *)
  bot : bool }.

Record message : Type := Message {
  channel_id : Z;                (* [message.channel.id] *)
  author : user;
  content : string;
  attachments : list attachment }.

(** [discord.File(io.BytesIO(file_content), filename=...)] *)
Record file : Type := File {
  file_content : bytes;
  file_name : string }.

(** The keyword arguments of [webhook.send]. *)
Record envelope : Type := Envelope {
  env_content : string;
  env_username : string;
  env_avatar_url : string;
  env_files : list file }.

(** The response object of [session.get]: its status, and what
    [await resp.read()] gives if it is called. *)
Record response : Type := Response {
  status : Z;
  read : outcome bytes }.

(** The module globals set at lines 9-23. *)
Record globals : Type := Globals {
  TOKEN : option string;
  WEBHOOK_URL : option string;
  DEEPL_API_KEY : option string;
  TARGET_CHANNEL_ID : Z }.

(** ** Effects: external calls and console output *)

Inductive event : Type :=
  | EvDetect (text : string) (r : outcome string)
  | EvTranslate (text target_lang : string) (r : outcome string)
  | EvGet (a : attachment) (r : outcome response)
  | EvDelete (m : message) (r : outcome unit)
  | EvWebhookFromUrl (u : option string) (r : outcome unit)
  | EvWebhookSend (e : envelope) (r : outcome unit)
  | EvPrint (line : string).

(** The outside world: each service answers a call and moves the world on. *)
Record services (W : Type) : Type := Services {
  svc_detect : string -> W -> outcome string * W;
  svc_translate_text : string -> string -> W -> outcome string * W;
  svc_get : string -> W -> outcome response * W;
  svc_delete : message -> W -> outcome unit * W;
  svc_webhook_from_url : option string -> W -> outcome unit * W;
  svc_webhook_send : envelope -> W -> outcome unit * W }.
Arguments svc_detect {W} _ _ _.
Arguments svc_translate_text {W} _ _ _ _.
Arguments svc_get {W} _ _ _.
Arguments svc_delete {W} _ _ _.
Arguments svc_webhook_from_url {W} _ _ _.
Arguments svc_webhook_send {W} _ _ _.

(** A computation: from a world to a result (or a propagating exception),
    the new world, and the events it produced, oldest first. *)
Definition M (W A : Type) : Type := W -> outcome A * W * list event.

Section Monad.
Context {W : Type}.

Definition ret {A} (a : A) : M W A := fun w => (Ok a, w, []).

Definition raise {A} (e : exn) : M W A := fun w => (Raise e, w, []).

Definition bind {A B} (m : M W A) (k : A -> M W B) : M W B :=
  fun w =>
    match m w with
    | (Ok a, w1, t1) =>
        let '(r, w2, t2) := k a w1 in (r, w2, t1 ++ t2)
    | (Raise e, w1, t1) => (Raise e, w1, t1)
    end.

(** [try: m] with the exception, if any, handed to the caller. *)
Definition attempt {A} (m : M W A) : M W (outcome A) :=
  fun w => let '(r, w1, t1) := m w in (Ok r, w1, t1).

(** One external call: ask the oracle, record call and answer. *)
Definition call {A} (f : W -> outcome A * W)
    (ev : outcome A -> event) : M W A :=
  fun w => let '(r, w1) := f w in (r, w1, [ev r]).

Definition print (line : string) : M W unit :=
  fun w => (Ok tt, w, [EvPrint line]).
End Monad.

Notation "'let!' x ':=' m 'in' k" := (bind m (fun x => k))
  (at level 10, x name, m at level 100, k at level 200, only parsing).
Notation "m ';;' k" := (bind m (fun _ => k))
  (at level 100, k at level 200, right associativity, only parsing).

(** ** The handler *)

Definition newline : string := String (ascii_of_nat 10) EmptyString.

(** [message.author.avatar.url if message.author.avatar
     else message.author.default_avatar.url] *)
Definition avatar_url (u : user) : string :=
  match avatar u with
  | Some a => a
  | None => default_avatar u
  end.

(** Line 119:
    [f"{translated_text}\n-# [Original] {message.content}"] *)
Definition final_content (translated_text original : string) : string :=
  translated_text +:+ newline +:+ "-# [Original] " +:+ original.

Section Handler.
Context {W : Type} (svc : services W) (g : globals).

Definition detect (text : string) : M W string :=
  call (svc_detect svc text) (EvDetect text).

Definition translate_text (text target_lang : string) : M W string :=
  call (svc_translate_text svc text target_lang)
       (EvTranslate text target_lang).

Definition session_get (a : attachment) : M W response :=
  call (svc_get svc (url a)) (EvGet a).

Definition message_delete (m : message) : M W unit :=
  call (svc_delete svc m) (EvDelete m).

Definition webhook_from_url (u : option string) : M W unit :=
  call (svc_webhook_from_url svc u) (EvWebhookFromUrl u).

Definition webhook_send (e : envelope) : M W unit :=
  call (svc_webhook_send svc e) (EvWebhookSend e).

(** Lines 80-96, the body of the loop for one attachment: the files
    gathered so far go in, the files gathered after it come out.  The
    whole body sits in [try ... except Exception], so nothing
    propagates. *)
Definition download (a : attachment) (attachment_files : list file)
    : M W (list file) :=
  let! r := attempt (session_get a) in
  match r with
  | Ok resp =>
      if status resp =? 200 then
        match read resp with
        | Ok file_content =>
            ret (attachment_files ++ [File file_content (filename a)])
        | Raise e =>
            print ("Error downloading attachment: " +:+ str e) ;;
            ret attachment_files
        end
      else
        print ("Failed to download attachment: " +:+ url a +:+
               " (Status: " +:+ pretty (status resp) +:+ ")") ;;
        ret attachment_files
  | Raise e =>
      print ("Error downloading attachment: " +:+ str e) ;;
      ret attachment_files
  end.

(** Lines 78-96: [for attachment in message.attachments]. *)
Fixpoint download_all (l : list attachment) (attachment_files : list file)
    : M W (list file) :=
  match l with
  | [] => ret attachment_files
  | a :: l' =>
      let! fs := download a attachment_files in
      download_all l' fs
  end.

(** Lines 50-132. *)
Definition on_message (m : message) : M W unit :=
  if negb (channel_id m =? TARGET_CHANNEL_ID g) then ret tt
  else if bot (author m) then ret tt
  else
    let! r := attempt (detect (content m)) in
    match r with
    | Raise e => print ("Error detecting language: " +:+ str e)
    | Ok source_lang =>
      if negb (String.eqb source_lang "en") then
        let! r := attempt (translate_text (content m) "EN-US") in
        match r with
        | Raise e =>
            if isinstance e DeepLException
            then print ("Error translating message: " +:+ str e)
            else raise e
        | Ok translated_text =>
          let! attachment_files := download_all (attachments m) [] in
          let! r := attempt (message_delete m) in
          match r with
          | Raise e =>
              if isinstance e Forbidden
              then print "Bot lacks permission to delete the message."
              else if isinstance e NotFound
              then print "Message not found (already deleted?)"
              else raise e
          | Ok _ =>
            let! r := attempt (webhook_from_url (WEBHOOK_URL g)) in
            match r with
            | Raise e => print ("Error creating webhook: " +:+ str e)
            | Ok _ =>
              let! r := attempt (webhook_send
                {| env_content := final_content translated_text (content m);
                   env_username := display_name (author m);
                   env_avatar_url := avatar_url (author m);
                   env_files := attachment_files |}) in
              match r with
              | Raise e =>
                  print ("Error sending webhook message: " +:+ str e)
              | Ok _ => ret tt
              end
            end
          end
        end
      else ret tt
    end.

(** What an invocation leaves behind. *)
Definition result_of (m : message) (w : W) : outcome unit :=
  (on_message m w).1.1.
Definition trace_of (m : message) (w : W) : list event :=
  (on_message m w).2.
End Handler.

(** ** Reading a trace *)

(** What one GET contributes, told from its answer alone: the attachment
    is fetched when the call returns, the status is 200 and the body can
    be read. *)
Definition fetched (a : attachment) (r : outcome response) : option file :=
  match r with
  | Ok resp =>
      if status resp =? 200 then
        match read resp with
        | Ok b => Some (File b (filename a))
        | Raise _ => None
        end
      else None
  | Raise _ => None
  end.

(** The console line a failed GET leaves. *)
Definition fetch_log (a : attachment) (r : outcome response) : list event :=
  match r with
  | Ok resp =>
      if status resp =? 200 then
        match read resp with
        | Ok _ => []
        | Raise e => [EvPrint ("Error downloading attachment: " +:+ str e)]
        end
      else [EvPrint ("Failed to download attachment: " +:+ url a +:+
                     " (Status: " +:+ pretty (status resp) +:+ ")")]
  | Raise e => [EvPrint ("Error downloading attachment: " +:+ str e)]
  end.

(** Attachments paired with the answers to their GETs, in order. *)
Fixpoint fetch_trace (l : list attachment) (rs : list (outcome response))
    : list event :=
  match l, rs with
  | a :: l', r :: rs' => EvGet a r :: fetch_log a r ++ fetch_trace l' rs'
  | _, _ => []
  end.

Fixpoint fetched_files (l : list attachment) (rs : list (outcome response))
    : list file :=
  match l, rs with
  | a :: l', r :: rs' => option_list (fetched a r) ++ fetched_files l' rs'
  | _, _ => []
  end.

Definition is_print (ev : event) : bool :=
  match ev with EvPrint _ => true | _ => false end.
Definition is_get (ev : event) : bool :=
  match ev with EvGet _ _ => true | _ => false end.
Definition is_delete (ev : event) : bool :=
  match ev with EvDelete _ _ => true | _ => false end.
Definition is_from_url (ev : event) : bool :=
  match ev with EvWebhookFromUrl _ _ => true | _ => false end.
Definition is_send (ev : event) : bool :=
  match ev with EvWebhookSend _ _ => true | _ => false end.
Definition is_webhook (ev : event) : bool := is_from_url ev || is_send ev.

(** A failed step of the pipeline proper: detection, translation,
    deletion, webhook construction or send.  A failed GET is not one. *)
Definition step_failed (ev : event) : bool :=
  match ev with
  | EvDetect _ r | EvTranslate _ _ r => negb (is_ok r)
  | EvDelete _ r | EvWebhookFromUrl _ r | EvWebhookSend _ r => negb (is_ok r)
  | EvGet _ _ | EvPrint _ => false
  end.

(** No event of the kind [p] in the trace. *)
Definition none (p : event -> bool) (t : list event) : Prop :=
  List.filter p t = [].

(** The envelopes handed to [webhook.send], oldest first. *)
Definition envelopes (t : list event) : list envelope :=
  omap (fun ev => match ev with EvWebhookSend e _ => Some e | _ => None end) t.

(** The handler let the message through the trigger filter. *)
Definition accepted (g : globals) (m : message) : Prop :=
  channel_id m = TARGET_CHANNEL_ID g /\ bot (author m) = false.

Definition repost (m : message) (translated_text : string)
    (files : list file) : envelope :=
  {| env_content := final_content translated_text (content m);
     env_username := display_name (author m);
     env_avatar_url := avatar_url (author m);
     env_files := files |}.

(** ** The executions of the handler

    Every way [on_message] can run, as result and trace.  [rs] are the
    answers to the GETs of the attachment loop. *)
Inductive run (g : globals) (m : message) : outcome unit -> list event -> Prop :=
  | run_other_channel :
      channel_id m <> TARGET_CHANNEL_ID g ->
      run g m (Ok tt) []
  | run_bot :
      channel_id m = TARGET_CHANNEL_ID g -> bot (author m) = true ->
      run g m (Ok tt) []
  | run_detect_error e :
      accepted g m ->
      run g m (Ok tt)
        [EvDetect (content m) (Raise e);
         EvPrint ("Error detecting language: " +:+ str e)]
  | run_english :
      accepted g m ->
      run g m (Ok tt) [EvDetect (content m) (Ok "en")]
  | run_translate_error lang e :
      accepted g m -> lang <> "en" ->
      isinstance e DeepLException = true ->
      run g m (Ok tt)
        [EvDetect (content m) (Ok lang);
         EvTranslate (content m) "EN-US" (Raise e);
         EvPrint ("Error translating message: " +:+ str e)]
  | run_translate_uncaught lang e :
      accepted g m -> lang <> "en" ->
      isinstance e DeepLException = false ->
      run g m (Raise e)
        [EvDetect (content m) (Ok lang);
         EvTranslate (content m) "EN-US" (Raise e)]
  | run_delete_forbidden lang translated rs e :
      accepted g m -> lang <> "en" ->
      length rs = length (attachments m) ->
      isinstance e Forbidden = true ->
      run g m (Ok tt)
        (EvDetect (content m) (Ok lang)
         :: EvTranslate (content m) "EN-US" (Ok translated)
         :: fetch_trace (attachments m) rs
         ++ [EvDelete m (Raise e);
             EvPrint "Bot lacks permission to delete the message."])
  | run_delete_not_found lang translated rs e :
      accepted g m -> lang <> "en" ->
      length rs = length (attachments m) ->
      isinstance e Forbidden = false -> isinstance e NotFound = true ->
      run g m (Ok tt)
        (EvDetect (content m) (Ok lang)
         :: EvTranslate (content m) "EN-US" (Ok translated)
         :: fetch_trace (attachments m) rs
         ++ [EvDelete m (Raise e);
             EvPrint "Message not found (already deleted?)"])
  | run_delete_uncaught lang translated rs e :
      accepted g m -> lang <> "en" ->
      length rs = length (attachments m) ->
      isinstance e Forbidden = false -> isinstance e NotFound = false ->
      run g m (Raise e)
        (EvDetect (content m) (Ok lang)
         :: EvTranslate (content m) "EN-US" (Ok translated)
         :: fetch_trace (attachments m) rs
         ++ [EvDelete m (Raise e)])
  | run_from_url_error lang translated rs e :
      accepted g m -> lang <> "en" ->
      length rs = length (attachments m) ->
      run g m (Ok tt)
        (EvDetect (content m) (Ok lang)
         :: EvTranslate (content m) "EN-US" (Ok translated)
         :: fetch_trace (attachments m) rs
         ++ [EvDelete m (Ok tt);
             EvWebhookFromUrl (WEBHOOK_URL g) (Raise e);
             EvPrint ("Error creating webhook: " +:+ str e)])
  | run_send_error lang translated rs e :
      accepted g m -> lang <> "en" ->
      length rs = length (attachments m) ->
      run g m (Ok tt)
        (EvDetect (content m) (Ok lang)
         :: EvTranslate (content m) "EN-US" (Ok translated)
         :: fetch_trace (attachments m) rs
         ++ [EvDelete m (Ok tt);
             EvWebhookFromUrl (WEBHOOK_URL g) (Ok tt);
             EvWebhookSend
               (repost m translated (fetched_files (attachments m) rs))
               (Raise e);
             EvPrint ("Error sending webhook message: " +:+ str e)])
  | run_reposted lang translated rs :
      accepted g m -> lang <> "en" ->
      length rs = length (attachments m) ->
      run g m (Ok tt)
        (EvDetect (content m) (Ok lang)
         :: EvTranslate (content m) "EN-US" (Ok translated)
         :: fetch_trace (attachments m) rs
         ++ [EvDelete m (Ok tt);
             EvWebhookFromUrl (WEBHOOK_URL g) (Ok tt);
             EvWebhookSend
               (repost m translated (fetched_files (attachments m) rs))
               (Ok tt)]).

(** ** Start-up (lines 8-31) *)

(** Python's [int] on a [str], base 10.  A [str] is the string of its
    UTF-8 bytes, as [os.environ] decodes the environment.  CPython first
    turns every character outside ASCII into an ASCII one, a Unicode
    space into a blank and a Unicode decimal digit into its ASCII digit
    ([to_ascii]), then reads: optional surrounding whitespace, an
    optional sign, then digits, with single underscores allowed between
    digits ([ascii_int]); it refuses more than 4300 digits.  [None]
    stands for [ValueError].  The tables are those of Unicode 14.0
    (CPython 3.11). *)
Definition is_space (c : ascii) : bool :=
  let n := N_of_ascii c in ((9 <=? n) && (n <=? 13) || (n =? 32))%N.

Definition digit_value (c : ascii) : option Z :=
  let n := N_of_ascii c in
  if ((48 <=? n) && (n <=? 57))%N then Some (Z.of_N n - 48) else None.

Definition is_underscore (c : ascii) : bool := (N_of_ascii c =? 95)%N.

Fixpoint skip_spaces (s : string) : string :=
  match s with
  | String c s' => if is_space c then skip_spaces s' else s
  | EmptyString => s
  end.

(** [after_digit] tells whether the previous character was a digit. *)
Fixpoint scan_digits (s : string) (acc : Z) (after_digit : bool)
    : option Z :=
  match s with
  | EmptyString => if after_digit then Some acc else None
  | String c s' =>
      match digit_value c with
      | Some d => scan_digits s' (10 * acc + d) true
      | None =>
          if is_underscore c then
            if after_digit then scan_digits s' acc false else None
          else if is_space c then
            if after_digit then
              match skip_spaces s' with
              | EmptyString => Some acc
              | String _ _ => None
              end
            else None
          else None
      end
  end.

Definition ascii_int (s : string) : option Z :=
  match skip_spaces s with
  | String "+" s' => scan_digits s' 0 false
  | String "-" s' => Z.opp <$> scan_digits s' 0 false
  | s' => scan_digits s' 0 false
  end.

(** The code points of the digit zero of each decimal script outside
    ASCII; the nine other digits follow each of them. *)
Definition decimal_zeros : list N :=
  [0x660; 0x6f0; 0x7c0; 0x966; 0x9e6; 0xa66; 0xae6; 0xb66; 0xbe6; 0xc66;
   0xce6; 0xd66; 0xde6; 0xe50; 0xed0; 0xf20; 0x1040; 0x1090; 0x17e0;
   0x1810; 0x1946; 0x19d0; 0x1a80; 0x1a90; 0x1b50; 0x1bb0; 0x1c40;
   0x1c50; 0xa620; 0xa8d0; 0xa900; 0xa9d0; 0xa9f0; 0xaa50; 0xabf0;
   0xff10; 0x104a0; 0x10d30; 0x11066; 0x110f0; 0x11136; 0x111d0;
   0x112f0; 0x11450; 0x114d0; 0x11650; 0x116c0; 0x11730; 0x118e0;
   0x11950; 0x11c50; 0x11d50; 0x11da0; 0x16a60; 0x16ac0; 0x16b50;
   0x1d7ce; 0x1d7d8; 0x1d7e2; 0x1d7ec; 0x1d7f6; 0x1e140; 0x1e2f0;
   0x1e950; 0x1fbf0]%N.

Definition unicode_decimal (cp : N) : option N :=
  (fun z => cp - z)%N <$>
  List.find (fun z => (z <=? cp) && (cp <? z + 10))%N decimal_zeros.

(** [str.isspace] outside ASCII. *)
Definition unicode_space (cp : N) : bool :=
  ((cp =? 0x85) || (cp =? 0xa0) || (cp =? 0x1680) ||
   ((0x2000 <=? cp) && (cp <=? 0x200a)) ||
   (cp =? 0x2028) || (cp =? 0x2029) || (cp =? 0x202f) ||
   (cp =? 0x205f) || (cp =? 0x3000))%N.

Definition ascii_of_code_point (cp : N) : option ascii :=
  if unicode_space cp then Some " "%char
  else (fun d => ascii_of_N (48 + d)) <$> unicode_decimal cp.

(** The low six bits of a continuation byte of UTF-8. *)
Definition continuation (c : ascii) : option N :=
  let b := N_of_ascii c in
  if ((0x80 <=? b) && (b <=? 0xbf))%N then Some (b - 0x80)%N else None.

(** ASCII bytes stay; a well-formed sequence of two to four bytes is
    decoded and must be a space or a decimal digit; anything else,
    ill-formed bytes included, makes [int] fail. *)
Fixpoint to_ascii (s : string) : option string :=
  match s with
  | EmptyString => Some EmptyString
  | String c0 s0 =>
      let b0 := N_of_ascii c0 in
      if (b0 <? 0x80)%N then String c0 <$> to_ascii s0
      else if (b0 <? 0xc2)%N then None
      else if (b0 <? 0xe0)%N then
        match s0 with
        | String c1 s1 =>
            match continuation c1 with
            | Some b1 =>
                match ascii_of_code_point ((b0 - 0xc0) * 64 + b1)%N with
                | Some c => String c <$> to_ascii s1
                | None => None
                end
            | None => None
            end
        | EmptyString => None
        end
      else if (b0 <? 0xf0)%N then
        match s0 with
        | String c1 (String c2 s2) =>
            match continuation c1, continuation c2 with
            | Some b1, Some b2 =>
                let cp := (((b0 - 0xe0) * 64 + b1) * 64 + b2)%N in
                if ((cp <? 0x800) || ((0xd800 <=? cp) && (cp <=? 0xdfff)))%N
                then None
                else
                  match ascii_of_code_point cp with
                  | Some c => String c <$> to_ascii s2
                  | None => None
                  end
            | _, _ => None
            end
        | _ => None
        end
      else if (b0 <? 0xf5)%N then
        match s0 with
        | String c1 (String c2 (String c3 s3)) =>
            match continuation c1, continuation c2, continuation c3 with
            | Some b1, Some b2, Some b3 =>
                let cp :=
                  ((((b0 - 0xf0) * 64 + b1) * 64 + b2) * 64 + b3)%N in
                if ((cp <? 0x10000) || (0x10ffff <? cp))%N then None
                else
                  match ascii_of_code_point cp with
                  | Some c => String c <$> to_ascii s3
                  | None => None
                  end
            | _, _, _ => None
            end
        | _ => None
        end
      else None
  end.

(** The number of digits among the characters. *)
Fixpoint digit_count (s : string) : N :=
  match s with
  | EmptyString => 0
  | String c s' =>
      match digit_value c with
      | Some _ => 1 + digit_count s'
      | None => digit_count s'
      end
  end%N.


(** [sys.get_int_max_str_digits()], left at its default. *)
Definition int_max_str_digits : N := 4300.

Definition py_int (s : string) : option Z :=
  match to_ascii s with
  | Some a =>
      if (int_max_str_digits <? digit_count a)%N then None else ascii_int a
  | None => None
  end.

(** The objects handed to [all] at line 26, and their truth value. *)
Inductive pyval : Type :=
  | PyNone
  | PyStr (s : string)
  | PyInt (n : Z).

Definition truthy (v : pyval) : bool :=
  match v with
  | PyNone => false
  | PyStr s => negb (String.eqb s EmptyString)
  | PyInt n => negb (n =? 0)
  end.

Definition py_all (l : list pyval) : bool := forallb truthy l.

Definition warning_invalid : string :=
  "Warning: TARGET_CHANNEL_ID environment variable is not a valid integer." +:+
  "  Using a default value of 0.".

Definition error_missing : string :=
  "Error: Missing one or more required environment variables:" +:+
  " DISCORD_TOKEN, WEBHOOK_URL, DEEPL_API_KEY, TARGET_CHANNEL_ID".

(** Lines 16-23: [int(os.environ.get("TARGET_CHANNEL_ID", 0))] under
    [try ... except ValueError]; the value and what was printed. *)
Definition read_target_channel_id (environ : gmap string string)
    : Z * list string :=
  match environ !! "TARGET_CHANNEL_ID" with
  | None => (0, [])                      (* int(0) *)
  | Some s =>
      match py_int s with
      | Some n => (n, [])
      | None => (0, [warning_invalid])
      end
  end.

(** Lines 9-23; [os.environ.get(k)] is the string or None. *)
Definition read_globals (environ : gmap string string)
    : globals * list string :=
  let '(n, out) := read_target_channel_id environ in
  ({| TOKEN := environ !! "DISCORD_TOKEN";
      WEBHOOK_URL := environ !! "WEBHOOK_URL";
      DEEPL_API_KEY := environ !! "DEEPL_API_KEY";
      TARGET_CHANNEL_ID := n |}, out).

Definition pyval_of (o : option string) : pyval :=
  match o with
  | Some s => PyStr s
  | None => PyNone
  end.

(** How the module body ends: [exit()] at line 31, or the client is
    built and run with these globals (lines 34-136).  Either way with
    what was printed so far. *)
Inductive startup : Type :=
  | Exited (stdout : list string)
  | Running (g : globals) (stdout : list string).

Definition main (environ : gmap string string) : startup :=
  let '(g, out) := read_globals environ in
  if negb (py_all [pyval_of (TOKEN g); pyval_of (WEBHOOK_URL g);
                   pyval_of (DEEPL_API_KEY g); PyInt (TARGET_CHANNEL_ID g)])
  then Exited (out ++ [error_missing])
  else Running g out.

(** ** A scripted world

    One answer per service, and the answers to the GETs in the order
    they will be asked; a GET beyond them finds the connection closed. *)
Record script : Type := Script {
  on_detect : outcome string;
  on_translate : outcome string;
  on_get : list (outcome response);
  on_delete : outcome unit;
  on_from_url : outcome unit;
  on_send : outcome unit }.

Definition scripted (s : script) : services (list (outcome response)) :=
  {| svc_detect := fun _ w => (on_detect s, w);
     svc_translate_text := fun _ _ w => (on_translate s, w);
     svc_get := fun _ w =>
       match w with
       | r :: w' => (r, w')
       | [] => (Raise (Exn ClientError "Connection closed"), [])
       end;
     svc_delete := fun _ w => (on_delete s, w);
     svc_webhook_from_url := fun _ w => (on_from_url s, w);
     svc_webhook_send := fun _ w => (on_send s, w) |}.

Definition play (s : script) (g : globals) (m : message)
    : outcome unit * list event :=
  (result_of (scripted s) g m (on_get s), trace_of (scripted s) g m (on_get s)).

(** ** Sample inputs *)

(** A URL of the shape [Webhook.from_url] accepts. *)
Definition sample_webhook_url : string :=
  "https://discord.com/api/webhooks/123456789012345678/" +:+
  "abcdefghijklmnopqrstuvwxyzABCDEFGHIJKLMNOPQRSTUVWXYZ0123456789-_".

Definition sample_globals : globals :=
  {| TOKEN := Some "discord-token";
     WEBHOOK_URL := Some sample_webhook_url;
     DEEPL_API_KEY := Some "deepl-key";
     TARGET_CHANNEL_ID := 42 |}.

(** A webhook URL that passes the start-up check and that
    [Webhook.from_url] refuses. *)
Definition misconfigured_globals : globals :=
  {| TOKEN := Some "discord-token";
     WEBHOOK_URL := Some "webhook";
     DEEPL_API_KEY := Some "deepl-key";
     TARGET_CHANNEL_ID := 42 |}.

Definition alice : user :=
  {| display_name := "Alice";
     avatar := None;
     default_avatar := "https://cdn.discordapp.com/embed/avatars/0.png";
     bot := false |}.

Definition relay_bot : user :=
  {| display_name := "Relay";
     avatar := Some "https://cdn.discordapp.com/avatars/9/f.png";
     default_avatar := "https://cdn.discordapp.com/embed/avatars/1.png";
     bot := true |}.

Definition bonjour : message :=
  {| channel_id := 42; author := alice;
     content := "Bonjour le monde"; attachments := [] |}.

Definition chart : attachment :=
  {| url := "https://cdn.discordapp.com/attachments/1/chart.png";
     filename := "chart.png" |}.

Definition notes : attachment :=
  {| url := "https://cdn.discordapp.com/attachments/2/notes.txt";
     filename := "notes.txt" |}.

Definition with_files : message :=
  {| channel_id := 42; author := alice;
     content := "Voici les fichiers"; attachments := [chart; notes] |}.

Definition elsewhere : message :=
  {| channel_id := 43; author := alice;
     content := "Bonjour le monde"; attachments := [] |}.

Definition from_bot : message :=
  {| channel_id := 42; author := relay_bot;
     content := "Bonjour le monde"; attachments := [] |}.

Definition png : bytes := [Byte.x89; Byte.x50; Byte.x4e; Byte.x47].

(** Everything answers; the second GET answers 404. *)
Definition all_fine : script :=
  {| on_detect := Ok "fr";
     on_translate := Ok "Hello world";
     on_get := [Ok (Response 200 (Ok png)); Ok (Response 404 (Ok []))];
     on_delete := Ok tt;
     on_from_url := Ok tt;
     on_send := Ok tt |}.

Definition in_english : script :=
  {| on_detect := Ok "en";
     on_translate := Ok "Hello world";
     on_get := [];
     on_delete := Ok tt;
     on_from_url := Ok tt;
     on_send := Ok tt |}.

Definition detection_down : script :=
  {| on_detect := Raise (Exn OtherException "timed out");
     on_translate := Ok "Hello world";
     on_get := [];
     on_delete := Ok tt;
     on_from_url := Ok tt;
     on_send := Ok tt |}.

Definition quota_exceeded : script :=
  {| on_detect := Ok "fr";
     on_translate :=
       Raise (Exn QuotaExceededException
                  "Quota for this billing period has been exceeded");
     on_get := [];
     on_delete := Ok tt;
     on_from_url := Ok tt;
     on_send := Ok tt |}.

Definition empty_text : script :=
  {| on_detect := Ok "fr";
     on_translate := Raise (Exn ValueError "text must not be empty");
     on_get := [];
     on_delete := Ok tt;
     on_from_url := Ok tt;
     on_send := Ok tt |}.

Definition delete_forbidden : script :=
  {| on_detect := Ok "fr";
     on_translate := Ok "Hello world";
     on_get := [Ok (Response 200 (Ok png)); Ok (Response 404 (Ok []))];
     on_delete := Raise (Exn Forbidden "403 Forbidden");
     on_from_url := Ok tt;
     on_send := Ok tt |}.

Definition bad_webhook_url : script :=
  {| on_detect := Ok "fr";
     on_translate := Ok "Hello world";
     on_get := [];
     on_delete := Ok tt;
     on_from_url := Raise (Exn ValueError "Invalid webhook URL given.");
     on_send := Ok tt |}.

Definition full_environ : gmap string string :=
  list_to_map [("DISCORD_TOKEN", "discord-token");
               ("WEBHOOK_URL", sample_webhook_url);
               ("DEEPL_API_KEY", "deepl-key");
               ("TARGET_CHANNEL_ID", "42")].

Definition no_deepl_key : gmap string string :=
  list_to_map [("DISCORD_TOKEN", "discord-token");
               ("WEBHOOK_URL", sample_webhook_url);
               ("TARGET_CHANNEL_ID", "42")].

Definition channel_zero : gmap string string :=
  list_to_map [("DISCORD_TOKEN", "discord-token");
               ("WEBHOOK_URL", sample_webhook_url);
               ("DEEPL_API_KEY", "deepl-key");
               ("TARGET_CHANNEL_ID", "0")].

Definition channel_by_name : gmap string string :=
  list_to_map [("DISCORD_TOKEN", "discord-token");
               ("WEBHOOK_URL", sample_webhook_url);
               ("DEEPL_API_KEY", "deepl-key");
               ("TARGET_CHANNEL_ID", "general")].

(** ** Traces against the services *)

(** The world an invocation leaves. *)
Definition world_of {W : Type} (svc : services W) (g : globals)
    (m : message) (w : W) : W :=
  (on_message svc g m w).1.2.

(** The answers of the CDN to the GETs for [l], asked in this order
    from the world [w], and the world after them. *)
Fixpoint ask_all {W : Type} (svc : services W) (l : list attachment)
    (w : W) : list (outcome response) * W :=
  match l with
  | [] => ([], w)
  | a :: l' =>
      let '(r, w1) := svc_get svc (url a) w in
      let '(rs, w2) := ask_all svc l' w1 in
      (r :: rs, w2)
  end.

(** [performs svc w t w']: asked the calls of [t], one after the other
    from the world [w], the services give the answers [t] records and
    leave the world [w'].  Console lines ask nothing. *)
Inductive performs {W : Type} (svc : services W)
    : W -> list event -> W -> Prop :=
  | performs_nil w :
      performs svc w [] w
  | performs_print w line t w' :
      performs svc w t w' ->
      performs svc w (EvPrint line :: t) w'
  | performs_detect w text r w1 t w' :
      svc_detect svc text w = (r, w1) ->
      performs svc w1 t w' ->
      performs svc w (EvDetect text r :: t) w'
  | performs_translate w text target_lang r w1 t w' :
      svc_translate_text svc text target_lang w = (r, w1) ->
      performs svc w1 t w' ->
      performs svc w (EvTranslate text target_lang r :: t) w'
  | performs_get w a r w1 t w' :
      svc_get svc (url a) w = (r, w1) ->
      performs svc w1 t w' ->
      performs svc w (EvGet a r :: t) w'
  | performs_delete w m r w1 t w' :
      svc_delete svc m w = (r, w1) ->
      performs svc w1 t w' ->
      performs svc w (EvDelete m r :: t) w'
  | performs_from_url w u r w1 t w' :
      svc_webhook_from_url svc u w = (r, w1) ->
      performs svc w1 t w' ->
      performs svc w (EvWebhookFromUrl u r :: t) w'
  | performs_send w e r w1 t w' :
      svc_webhook_send svc e w = (r, w1) ->
      performs svc w1 t w' ->
      performs svc w (EvWebhookSend e r :: t) w'.

(** The attachment loop against the CDN: it asks for every attachment,
    in order, returns the files it was given followed by what [fetched]
    tells from each answer, and leaves the world the last GET left. *)
Definition loop_asks {W : Type} (svc : services W) : Prop :=
  forall (l : list attachment) (fs : list file) (w : W),
    download_all svc l fs w =
      (Ok (fs ++ fetched_files l (ask_all svc l w).1),
       (ask_all svc l w).2,
       fetch_trace l (ask_all svc l w).1).

(** ** Further readings of a trace *)

Definition is_detect (ev : event) : bool :=
  match ev with EvDetect _ _ => true | _ => false end.
Definition is_translate (ev : event) : bool :=
  match ev with EvTranslate _ _ _ => true | _ => false end.

(** The external calls of a trace, console lines left out. *)
Definition calls (t : list event) : list event :=
  List.filter (fun ev => negb (is_print ev)) t.

(** The step of the handler a call belongs to, in the order of the
    source text (lines 61, 70, 82, 100, 111, 121). *)
Definition stage (ev : event) : nat :=
  match ev with
  | EvDetect _ _ => 0
  | EvTranslate _ _ _ => 1
  | EvGet _ _ => 2
  | EvDelete _ _ => 3
  | EvWebhookFromUrl _ _ => 4
  | EvWebhookSend _ _ => 5
  | EvPrint _ => 6
  end.

(** [a] may come before [b]: a later step, or two GETs of the loop. *)
Definition in_order (a b : event) : Prop :=
  (stage a < stage b)%nat \/ (is_get a = true /\ is_get b = true).

(** The call is about this message and these globals, and nothing else. *)
Definition concerns (g : globals) (m : message) (ev : event) : Prop :=
  match ev with
  | EvDetect text _ => text = content m
  | EvTranslate text target_lang _ =>
      text = content m /\ target_lang = "EN-US"
  | EvGet a _ => a ∈ attachments m
  | EvDelete m' _ => m' = m
  | EvWebhookFromUrl u _ => u = WEBHOOK_URL g
  | EvWebhookSend e _ =>
      env_username e = display_name (author m) /\
      env_avatar_url e = avatar_url (author m) /\
      exists translated_text,
        env_content e = final_content translated_text (content m)
  | EvPrint _ => True
  end.

(** More sample answers. *)
Definition send_rejected : script :=
  {| on_detect := Ok "fr";
     on_translate := Ok "Hello world";
     on_get := [Ok (Response 200 (Ok png)); Ok (Response 404 (Ok []))];
     on_delete := Ok tt;
     on_from_url := Ok tt;
     on_send := Raise (Exn HTTPException "400 Bad Request") |}.

Definition delete_server_error : script :=
  {| on_detect := Ok "fr";
     on_translate := Ok "Hello world";
     on_get := [Ok (Response 200 (Ok png)); Ok (Response 404 (Ok []))];
     on_delete := Raise (Exn HTTPException "500 Internal Server Error");
     on_from_url := Ok tt;
     on_send := Ok tt |}.

Definition both_fetched : script :=
  {| on_detect := Ok "fr";
     on_translate := Ok "Hello world";
     on_get := [Ok (Response 200 (Ok png)); Ok (Response 200 (Ok []))];
     on_delete := Ok tt;
     on_from_url := Ok tt;
     on_send := Ok tt |}.

Definition blank_webhook_url : gmap string string :=
  list_to_map [("DISCORD_TOKEN", "discord-token");
               ("WEBHOOK_URL", EmptyString);
               ("DEEPL_API_KEY", "deepl-key");
               ("TARGET_CHANNEL_ID", "42")].

(** No line break in the text. *)
Fixpoint single_line (s : string) : bool :=
  match s with
  | EmptyString => true
  | String c s' => negb (Ascii.eqb c (ascii_of_nat 10)) && single_line s'
  end.

(** ** The attachment loop *)

Section Download.
Context {W : Type} (svc : services W).

Lemma download_eq a fs w :
  download svc a fs w =
    let '(r, w1) := svc_get svc (url a) w in
    (Ok (fs ++ option_list (fetched a r)), w1, EvGet a r :: fetch_log a r).
Proof.
  unfold download, bind, attempt, session_get, call, fetched, fetch_log.
  destruct (svc_get svc (url a) w) as [[resp|e] w1]; simpl.
  - destruct (status resp =? 200); simpl.
    + destruct (read resp); simpl; by rewrite ?app_nil_r.
    + by rewrite app_nil_r.
  - by rewrite app_nil_r.
Qed.

(** The loop never raises: it asks for each attachment once, in order,
    and returns the files gathered so far followed by the fetched ones. *)
Lemma download_all_eq l : forall fs w,
  exists rs w',
    length rs = length l /\
    download_all svc l fs w =
      (Ok (fs ++ fetched_files l rs), w', fetch_trace l rs).
Proof.
  induction l as [|a l IH]; intros fs w; simpl.
  - exists [], w. by rewrite app_nil_r.
  - unfold bind. rewrite download_eq.
    destruct (svc_get svc (url a) w) as [r w1].
    destruct (IH (fs ++ option_list (fetched a r)) w1)
      as (rs & w' & Hlen & ->).
    exists (r :: rs), w'. split; [simpl; by rewrite Hlen|].
    by rewrite <- app_assoc.
Qed.
End Download.

(** ** Every invocation is one of the executions above *)

Section Executions.
Context {W : Type} (svc : services W) (g : globals).

Ltac answer f :=
  match goal with
  | |- context [f ?w] =>
      let r := fresh "r" in let w' := fresh "w" in
      destruct (f w) as [r w']; simpl
  end.

Lemma on_message_run m w :
  run g m (result_of svc g m w) (trace_of svc g m w).
Proof.
  unfold result_of, trace_of, on_message.
  destruct (channel_id m =? TARGET_CHANNEL_ID g) eqn:Hc; simpl;
    [apply Z.eqb_eq in Hc | apply Z.eqb_neq in Hc; by constructor].
  destruct (bot (author m)) eqn:Hb; simpl; [by constructor|].
  assert (Hacc : accepted g m) by done.
  unfold bind, attempt, detect, translate_text, message_delete,
    webhook_from_url, webhook_send, call, print, ret, raise.
  answer (svc_detect svc (content m)).
  destruct r as [lang|e]; simpl; [|by constructor].
  destruct (String.eqb lang "en") eqn:Hl; simpl.
  { apply String.eqb_eq in Hl as ->. by constructor. }
  apply String.eqb_neq in Hl.
  answer (svc_translate_text svc (content m) "EN-US").
  destruct r as [translated|e]; simpl.
  2: { destruct (isinstance e DeepLException) eqn:Hd; simpl;
       by econstructor. }
  destruct (download_all_eq svc (attachments m) [] w1)
    as (rs & w2 & Hlen & ->); simpl.
  answer (svc_delete svc m).
  destruct r as [[]|e]; simpl.
  2: { destruct (isinstance e Forbidden) eqn:Hf; simpl;
         [by econstructor|].
       destruct (isinstance e NotFound) eqn:Hn; simpl;
         by econstructor. }
  answer (svc_webhook_from_url svc (WEBHOOK_URL g)).
  destruct r as [[]|e]; simpl; [|by econstructor].
  match goal with
  | |- context [svc_webhook_send svc ?e ?w] =>
      destruct (svc_webhook_send svc e w) as [[[]|e'] w']; simpl
  end.
  - by apply run_reposted.
  - by apply run_send_error.
Qed.
End Executions.

(** ** Facts about the trace of the attachment loop *)

Lemma fetch_log_print a r ev : ev ∈ fetch_log a r -> is_print ev = true.
Proof.
  unfold fetch_log.
  destruct r as [resp|e]; [destruct (status resp =? 200);
    [destruct (read resp)|]|]; intros H;
    first [by apply elem_of_nil in H
          | by apply list_elem_of_singleton in H as ->].
Qed.

Lemma fetch_trace_kind l rs ev :
  ev ∈ fetch_trace l rs -> is_get ev = true \/ is_print ev = true.
Proof.
  revert rs. induction l as [|a l IH]; intros [|r rs]; simpl;
    try (intros H; by apply elem_of_nil in H).
  rewrite elem_of_cons, elem_of_app.
  intros [->|[H|H]]; [by left | right; by eapply fetch_log_print | by eauto].
Qed.

Lemma filter_none (p : event -> bool) t :
  (forall ev, ev ∈ t -> p ev = false) -> List.filter p t = [].
Proof.
  induction t as [|ev t IH]; intros H; simpl; [done|].
  rewrite (H ev) by apply list_elem_of_here.
  apply IH. intros ev' Hev'. apply H. by apply list_elem_of_further.
Qed.

(** The loop only asks for attachments and prints. *)
Lemma fetch_trace_filter (p : event -> bool) l rs :
  (forall ev, is_get ev = true \/ is_print ev = true -> p ev = false) ->
  List.filter p (fetch_trace l rs) = [].
Proof.
  intros Hp. apply filter_none. intros ev Hev.
  by apply Hp, (fetch_trace_kind l rs).
Qed.

(** It asks for each attachment once, in the order of the message. *)
Lemma fetch_trace_gets l : forall rs,
  length rs = length l ->
  List.filter is_get (fetch_trace l rs) = zip_with EvGet l rs.
Proof.
  induction l as [|a l IH]; intros [|r rs] Hlen; simpl in *; try done.
  rewrite List.filter_app, (filter_none _ (fetch_log a r)); simpl.
  - f_equal. apply IH. lia.
  - intros ev Hev. apply fetch_log_print in Hev. by destruct ev.
Qed.

(** The files are the fetched attachments, in the order of the message,
    the others left out. *)
Lemma fetched_files_omap l : forall rs,
  fetched_files l rs = omap (fun ar => fetched ar.1 ar.2) (zip l rs).
Proof.
  induction l as [|a l IH]; intros [|r rs]; simpl; try done.
  rewrite IH. by destruct (fetched a r).
Qed.

Lemma fetched_Some a r f :
  fetched a r = Some f <->
  exists resp b, r = Ok resp /\ status resp = 200 /\ read resp = Ok b /\
                 f = File b (filename a).
Proof.
  unfold fetched. split.
  - destruct r as [resp|e]; [|done].
    destruct (status resp =? 200) eqn:Hs; [|done].
    apply Z.eqb_eq in Hs.
    destruct (read resp) as [b|e] eqn:Hr; [|done].
    intros [= <-]. by exists resp, b.
  - intros (resp & b & -> & Hs & Hr & ->).
    apply Z.eqb_eq in Hs. by rewrite Hs, Hr.
Qed.

Lemma fetched_files_sublist l : forall rs,
  sublist (file_name <$> fetched_files l rs) (filename <$> l).
Proof.
  induction l as [|a l IH]; intros [|r rs]; simpl;
    try apply sublist_nil_l.
  destruct (fetched a r) as [f|] eqn:Hf; simpl.
  - apply fetched_Some in Hf as (resp & b & _ & _ & _ & ->). simpl.
    by apply sublist_skip.
  - by apply sublist_cons.
Qed.


(** Each attachment that is not fetched leaves one console line. *)
Lemma fetch_trace_logged l : forall rs i a r,
  l !! i = Some a -> rs !! i = Some r -> fetched a r = None ->
  exists line, fetch_log a r = [EvPrint line] /\
               EvPrint line ∈ fetch_trace l rs.
Proof.
  induction l as [|a' l IH]; intros [|r' rs] [|i] a r Ha Hr Hf;
    simpl in *; try done.
  - injection Ha as ->. injection Hr as ->.
    assert (exists line, fetch_log a r = [EvPrint line]) as [line Hl].
    { unfold fetched, fetch_log in *.
      destruct r as [resp|e]; [destruct (status resp =? 200);
        [destruct (read resp)|]|]; try done; by eexists. }
    exists line. split; [done|]. rewrite Hl. simpl.
    apply list_elem_of_further, list_elem_of_here.
  - destruct (IH rs i a r Ha Hr Hf) as (line & Hl & Hin).
    exists line. split; [done|].
    apply list_elem_of_further, elem_of_app. by right.
Qed.

(** Splits a membership in a trace into its cases; the cases inside the
    attachment loop are closed when the event is neither a GET nor a
    console line. *)
Ltac in_trace H :=
  repeat first
    [ apply elem_of_nil in H; destruct H
    | apply elem_of_cons in H as [H|H]
    | apply elem_of_app in H as [H|H]
    | apply fetch_trace_kind in H as [H|H]; discriminate H
    | discriminate H ].

(** Filters a trace of a known shape. *)
Ltac filter_trace :=
  unfold none, envelopes; simpl;
  rewrite ?List.filter_app;
  rewrite ?fetch_trace_filter by (by intros [] [|]);
  simpl.

Ltac no_such_event := by filter_trace.

(** ** The trace against the services *)

Section Asked.
Context {W : Type} (svc : services W).

Lemma performs_app w1 t1 w2 t2 w3 :
  performs svc w1 t1 w2 -> performs svc w2 t2 w3 ->
  performs svc w1 (t1 ++ t2) w3.
Proof.
  induction 1; intros H2; simpl; [done|econstructor; eauto..].
Qed.

Lemma ask_all_length l : forall w,
  length (ask_all svc l w).1 = length l.
Proof.
  induction l as [|a l IH]; intros w; simpl; [done|].
  destruct (svc_get svc (url a) w) as [r w1]. specialize (IH w1).
  destruct (ask_all svc l w1) as [rs w2]. simpl in *. by rewrite IH.
Qed.

(** The answers [ask_all] collects are what the CDN gives to the GETs
    of [fetch_trace]. *)
Lemma performs_fetch_trace l : forall w,
  performs svc w (fetch_trace l (ask_all svc l w).1) (ask_all svc l w).2.
Proof.
  induction l as [|a l IH]; intros w; simpl; [constructor|].
  destruct (svc_get svc (url a) w) as [r w1] eqn:Hget. specialize (IH w1).
  destruct (ask_all svc l w1) as [rs w2]. simpl in *.
  eapply performs_get; [exact Hget|].
  unfold fetch_log.
  destruct r as [resp|e]; [destruct (status resp =? 200);
    [destruct (read resp)|]|]; simpl; by repeat constructor.
Qed.
End Asked.

(** The operations of the handler, down to the calls of the services. *)
Ltac unfold_calls :=
  unfold bind, attempt, detect, translate_text, session_get,
    message_delete, webhook_from_url, webhook_send, call, print, ret, raise.

(** Proves [loop_asks] from the text of [download] and [download_all]. *)
Ltac loop_by_unfolding :=
  let l := fresh "l" in
  let IH := fresh "IH" in
  let Hask := fresh "Hask" in
  unfold loop_asks; intros l; induction l as [|? l IH]; intros ? ?; simpl;
  [ by rewrite app_nil_r |];
  unfold download; unfold_calls;
  match goal with
  | |- context [svc_get ?svc ?u ?w] =>
      destruct (svc_get svc u w) as [?r ?w]
  end;
  match goal with
  | |- context [ask_all ?svc ?l ?w] =>
      destruct (ask_all svc l w) eqn:Hask
  end;
  simpl; unfold fetched, fetch_log;
  match goal with
  | |- context [match ?r with Ok _ => _ | Raise _ => _ end] =>
      destruct r as [?resp|?]
  end; simpl;
  repeat match goal with
  | |- context [status ?resp =? 200] => destruct (status resp =? 200); simpl
  | |- context [read ?resp] => destruct (read resp); simpl
  end;
  rewrite IH, Hask; simpl;
  by rewrite <- ?app_assoc, ?app_nil_r.

(** Case analysis on the answer to a call the goal makes, keeping what
    was asked. *)
Ltac answer_to f :=
  match goal with
  | |- context [f ?w] =>
      let H := fresh "Hasked" in
      destruct (f w) as [[?|?] ?] eqn:H; simpl
  end.

Ltac answer_to_send svc :=
  match goal with
  | |- context [svc_webhook_send svc ?e ?w] =>
      let H := fresh "Hasked" in
      destruct (svc_webhook_send svc e w) as [[?|?] ?] eqn:H; simpl
  end.

(** Replays a trace against the answers in the context. *)
Ltac replay :=
  solve [ repeat first
    [ apply performs_nil
    | apply performs_print
    | eapply performs_detect; [eassumption|]
    | eapply performs_translate; [eassumption|]
    | eapply performs_delete; [eassumption|]
    | eapply performs_from_url; [eassumption|]
    | eapply performs_send; [eassumption|]
    | eapply performs_app; [apply performs_fetch_trace|] ] ].

(** Proves, from the text of [on_message], that the trace of an
    invocation is what the services were asked and answered. *)
Ltac asked_by_unfolding svc g m w :=
  let Hloop := fresh "Hloop" in
  assert (Hloop : loop_asks svc) by loop_by_unfolding;
  unfold trace_of, world_of, on_message;
  destruct (channel_id m =? TARGET_CHANNEL_ID g); simpl; [|replay];
  destruct (bot (author m)); simpl; [replay|];
  unfold_calls;
  answer_to (svc_detect svc (content m)); [|replay];
  match goal with
  | |- context [String.eqb ?l "en"] => destruct (String.eqb l "en"); simpl
  end; [replay|];
  answer_to (svc_translate_text svc (content m) "EN-US");
    [|match goal with
      | |- context [isinstance ?e DeepLException] =>
          destruct (isinstance e DeepLException); simpl; replay
      end];
  rewrite Hloop; simpl;
  answer_to (svc_delete svc m);
    [|match goal with
      | |- context [isinstance ?e Forbidden] =>
          destruct (isinstance e Forbidden); simpl; [replay|];
          destruct (isinstance e NotFound); simpl; replay
      end];
  answer_to (svc_webhook_from_url svc (WEBHOOK_URL g)); [|replay];
  answer_to_send svc; replay.

(** Runs [on_message] up to the end of the attachment loop, for an
    accepted message whose text is detected as foreign and translated. *)
Ltac run_translated Hacc Hd Hl Ht Hloop :=
  unfold trace_of, world_of, result_of, on_message;
  rewrite (proj2 (Z.eqb_eq _ _) (proj1 Hacc)), (proj2 Hacc); simpl;
  unfold_calls;
  rewrite Hd; simpl;
  rewrite (proj2 (String.eqb_neq _ _) Hl); simpl;
  rewrite Ht; simpl;
  rewrite Hloop; simpl.

Section Asked_check.
Context {W : Type} (svc : services W) (g : globals).

Lemma loop_asks_holds : loop_asks svc.
Proof. loop_by_unfolding. Qed.

Lemma asked_holds m w :
  performs svc w (trace_of svc g m w) (world_of svc g m w).
Proof. asked_by_unfolding svc g m w. Qed.
End Asked_check.

Section Claims.
Context {W : Type} (svc : services W) (g : globals).

(** C5. A message from another channel, or from a bot in any channel,
    is ignored: the handler returns at once, no service is called,
    nothing is printed and the world is as it was. *)
Theorem C5_filtered_message_no_effect (m : message) (w : W) :
  channel_id m <> TARGET_CHANNEL_ID g \/ bot (author m) = true ->
  on_message svc g m w = (Ok tt, w, []).
Proof.
  intros H. unfold on_message.
  destruct (channel_id m =? TARGET_CHANNEL_ID g) eqn:Hc; simpl; [|done].
  apply Z.eqb_eq in Hc. destruct H as [H| ->]; [by destruct H | done].
Qed.

(** C6. In the target channel and from a human author, when detection
    answers "en" the handler stops there: the detection call is the
    only event (no translation, no deletion, no webhook), and the
    handler returns normally. *)
Theorem C6_english_left_untouched (m : message) (w w1 : W) :
  accepted g m ->
  svc_detect svc (content m) w = (Ok "en", w1) ->
  on_message svc g m w = (Ok tt, w1, [EvDetect (content m) (Ok "en")]).
Proof.
  intros [Hc Hb] Hd. unfold on_message.
  apply Z.eqb_eq in Hc. rewrite Hc, Hb. simpl.
  unfold bind, attempt, detect, call. by rewrite Hd.
Qed.

(** C8. When the detection call raises, whatever the exception, the
    handler prints the error and returns normally: the trace is the
    failed detection and the console line, so no translation, no
    deletion and no webhook call happen, and nothing propagates. *)
Theorem C8_detection_error_aborts (m : message) (w w1 : W) (e : exn) :
  accepted g m ->
  svc_detect svc (content m) w = (Raise e, w1) ->
  on_message svc g m w =
    (Ok tt, w1,
     [EvDetect (content m) (Raise e);
      EvPrint ("Error detecting language: " +:+ str e)]).
Proof.
  intros [Hc Hb] Hd. unfold on_message.
  apply Z.eqb_eq in Hc. rewrite Hc, Hb. simpl.
  unfold bind, attempt, detect, call, print. by rewrite Hd.
Qed.

(** C3. When the translation call raises, the handler stops before any
    mutation: the trace holds no deletion and no webhook call.  When
    the exception is a [deepl.DeepLException], the class of every error
    of the translation service, the handler prints that one error and
    returns normally. *)
Theorem C3_translation_error_aborts (m : message) (w : W)
    (text target : string) (e : exn) :
  EvTranslate text target (Raise e) ∈ trace_of svc g m w ->
  none is_delete (trace_of svc g m w) /\
  none is_webhook (trace_of svc g m w) /\
  (isinstance e DeepLException = true ->
     result_of svc g m w = Ok tt /\
     List.filter is_print (trace_of svc g m w) =
       [EvPrint ("Error translating message: " +:+ str e)]).
Proof.
  intros Hin.
  destruct (on_message_run svc g m w); in_trace Hin;
    injection Hin as <- <- <-;
    (split; [no_such_event | split; [no_such_event|]]).
  - done.
  - congruence.
Qed.

(** What C3 leaves open: an exception of the translation call that is
    not a [DeepLException] is not caught; it leaves the handler, which
    has printed nothing. *)
Lemma translation_error_uncaught (m : message) (w : W)
    (text target : string) (e : exn) :
  EvTranslate text target (Raise e) ∈ trace_of svc g m w ->
  isinstance e DeepLException = false ->
  result_of svc g m w = Raise e /\ none is_print (trace_of svc g m w).
Proof.
  intros Hin He.
  destruct (on_message_run svc g m w); in_trace Hin;
    injection Hin as <- <- <-; [congruence|].
  split; [done | no_such_event].
Qed.

(** C4. When the deletion is refused ([Forbidden]) or the message is
    gone ([NotFound]), the handler has translated and gone through the
    attachments, prints the error as its last act and returns: no
    webhook is built, nothing is sent, and the translated text appears
    nowhere after the translation call. *)
Theorem C4_deletion_error_aborts (m m' : message) (w : W) (e : exn) :
  EvDelete m' (Raise e) ∈ trace_of svc g m w ->
  isinstance e Forbidden = true \/ isinstance e NotFound = true ->
  none is_webhook (trace_of svc g m w) /\
  result_of svc g m w = Ok tt /\
  exists lang translated rs,
    length rs = length (attachments m) /\
    trace_of svc g m w =
      EvDetect (content m) (Ok lang)
      :: EvTranslate (content m) "EN-US" (Ok translated)
      :: fetch_trace (attachments m) rs
      ++ [EvDelete m (Raise e);
          EvPrint (if isinstance e Forbidden
                   then "Bot lacks permission to delete the message."
                   else "Message not found (already deleted?)")].
Proof.
  intros Hin He.
  destruct (on_message_run svc g m w) as
    [| | | | | |lang tr rs e' ? ? ? Hf|lang tr rs e' ? ? ? Hf Hn
     |lang tr rs e' ? ? ? Hf Hn| | |]; in_trace Hin;
    injection Hin as <- <-.
  - split; [no_such_event|]. split; [done|].
    exists lang, tr, rs. by rewrite Hf.
  - split; [no_such_event|]. split; [done|].
    exists lang, tr, rs. by rewrite Hf.
  - destruct He; congruence.
Qed.

(** C1. In the target channel, from a human author, when detection
    answers a code other than "en", translation returns a text, the
    deletion of the original succeeds, the webhook is built and the
    send succeeds, each asked in the world the previous call left: the
    handler has asked for every attachment, has deleted the original
    once, and has sent one repost, whose content is the translated
    text, a newline, "-# [Original] " and the original text, whose
    username is the author's display name, whose avatar URL is the
    author's avatar if there is one and the default avatar otherwise,
    and whose files are the fetched attachments in the order of the
    message.  The world it leaves is the one the send left. *)
Theorem C1_translated_repost (m : message) (w w1 w2 w3 w4 w5 w6 : W)
    (lang translated : string) (rs : list (outcome response)) :
  let e :=
    {| env_content :=
         translated +:+ newline +:+ "-# [Original] " +:+ content m;
       env_username := display_name (author m);
       env_avatar_url :=
         match avatar (author m) with
         | Some a => a
         | None => default_avatar (author m)
         end;
       env_files :=
         omap (fun ar => fetched ar.1 ar.2) (zip (attachments m) rs) |} in
  accepted g m ->
  svc_detect svc (content m) w = (Ok lang, w1) ->
  lang <> "en" ->
  svc_translate_text svc (content m) "EN-US" w1 = (Ok translated, w2) ->
  ask_all svc (attachments m) w2 = (rs, w3) ->
  svc_delete svc m w3 = (Ok tt, w4) ->
  svc_webhook_from_url svc (WEBHOOK_URL g) w4 = (Ok tt, w5) ->
  svc_webhook_send svc e w5 = (Ok tt, w6) ->
  on_message svc g m w =
    (Ok tt, w6,
     EvDetect (content m) (Ok lang)
     :: EvTranslate (content m) "EN-US" (Ok translated)
     :: fetch_trace (attachments m) rs
     ++ [EvDelete m (Ok tt);
         EvWebhookFromUrl (WEBHOOK_URL g) (Ok tt);
         EvWebhookSend e (Ok tt)]) /\
  List.filter is_delete (trace_of svc g m w) = [EvDelete m (Ok tt)] /\
  List.filter is_send (trace_of svc g m w) = [EvWebhookSend e (Ok tt)].
Proof.
  intros e Hacc Hd Hl Ht Ha Hdel Hf Hs.
  assert (Hloop : loop_asks svc) by loop_by_unfolding.
  assert (Hrun : on_message svc g m w =
    (Ok tt, w6,
     EvDetect (content m) (Ok lang)
     :: EvTranslate (content m) "EN-US" (Ok translated)
     :: fetch_trace (attachments m) rs
     ++ [EvDelete m (Ok tt);
         EvWebhookFromUrl (WEBHOOK_URL g) (Ok tt);
         EvWebhookSend e (Ok tt)])).
  { run_translated Hacc Hd Hl Ht Hloop.
    rewrite Ha. simpl. rewrite Hdel. simpl. rewrite Hf. simpl.
    match goal with
    | |- context [svc_webhook_send svc ?e' w5] =>
        replace e' with e
          by (unfold e, final_content, avatar_url;
              by rewrite fetched_files_omap)
    end.
    rewrite Hs. simpl. by rewrite <- ?app_assoc. }
  split; [exact Hrun|]. unfold trace_of. rewrite Hrun.
  split; by filter_trace.
Qed.


(** C7. One attachment: the CDN is asked for its URL; when it answers
    with status 200 and the body can be read, the bytes are appended to
    the files under the attachment's filename; with another status,
    when the body cannot be read, or when the GET raises, a line is
    printed and the files stay as they were; nothing is raised in any
    of these cases.  All attachments: each is asked for once, in order,
    and the files are the fetched ones in that order.  The handler:
    whatever the CDN answered, the next call is the deletion, and when
    the deletion and the webhook construction succeed, what the webhook
    is asked to send carries exactly these files. *)
Theorem C7_attachments_fetched_independently :
  (forall a fs (w w1 : W) resp b,
     svc_get svc (url a) w = (Ok resp, w1) ->
     status resp = 200 -> read resp = Ok b ->
     download svc a fs w =
       (Ok (fs ++ [File b (filename a)]), w1, [EvGet a (Ok resp)])) /\
  (forall a fs (w w1 : W) resp,
     svc_get svc (url a) w = (Ok resp, w1) ->
     status resp <> 200 ->
     download svc a fs w =
       (Ok fs, w1,
        [EvGet a (Ok resp);
         EvPrint ("Failed to download attachment: " +:+ url a +:+
                  " (Status: " +:+ pretty (status resp) +:+ ")")])) /\
  (forall a fs (w w1 : W) resp e,
     svc_get svc (url a) w = (Ok resp, w1) ->
     status resp = 200 -> read resp = Raise e ->
     download svc a fs w =
       (Ok fs, w1,
        [EvGet a (Ok resp);
         EvPrint ("Error downloading attachment: " +:+ str e)])) /\
  (forall a fs (w w1 : W) e,
     svc_get svc (url a) w = (Raise e, w1) ->
     download svc a fs w =
       (Ok fs, w1,
        [EvGet a (Raise e);
         EvPrint ("Error downloading attachment: " +:+ str e)])) /\
  (forall l fs (w : W),
     download_all svc l fs w =
       (Ok (fs ++ omap (fun ar => fetched ar.1 ar.2)
                    (zip l (ask_all svc l w).1)),
        (ask_all svc l w).2,
        fetch_trace l (ask_all svc l w).1) /\
     List.filter is_get (fetch_trace l (ask_all svc l w).1) =
       zip_with EvGet l (ask_all svc l w).1 /\
     length (ask_all svc l w).1 = length l) /\
  (forall m (w w1 w2 w3 w4 : W) lang translated rs rd,
     accepted g m ->
     svc_detect svc (content m) w = (Ok lang, w1) ->
     lang <> "en" ->
     svc_translate_text svc (content m) "EN-US" w1 = (Ok translated, w2) ->
     ask_all svc (attachments m) w2 = (rs, w3) ->
     svc_delete svc m w3 = (rd, w4) ->
     exists rest,
       trace_of svc g m w =
         EvDetect (content m) (Ok lang)
         :: EvTranslate (content m) "EN-US" (Ok translated)
         :: fetch_trace (attachments m) rs ++ EvDelete m rd :: rest /\
       performs svc w4 rest (world_of svc g m w)) /\
  (forall m (w w1 w2 w3 w4 w5 w6 : W) lang translated rs rsend,
     accepted g m ->
     svc_detect svc (content m) w = (Ok lang, w1) ->
     lang <> "en" ->
     svc_translate_text svc (content m) "EN-US" w1 = (Ok translated, w2) ->
     ask_all svc (attachments m) w2 = (rs, w3) ->
     svc_delete svc m w3 = (Ok tt, w4) ->
     svc_webhook_from_url svc (WEBHOOK_URL g) w4 = (Ok tt, w5) ->
     svc_webhook_send svc
       (repost m translated
          (omap (fun ar => fetched ar.1 ar.2) (zip (attachments m) rs)))
       w5 = (rsend, w6) ->
     world_of svc g m w = w6 /\
     EvWebhookSend
       (repost m translated
          (omap (fun ar => fetched ar.1 ar.2) (zip (attachments m) rs)))
       rsend ∈ trace_of svc g m w).
Proof.
  assert (Hloop : loop_asks svc) by loop_by_unfolding.
  repeat apply conj.
  - intros a fs w w1 resp b Hg Hs Hr. unfold download. unfold_calls.
    apply Z.eqb_eq in Hs. rewrite Hg. simpl. by rewrite Hs, Hr.
  - intros a fs w w1 resp Hg Hs. unfold download. unfold_calls.
    apply Z.eqb_neq in Hs. rewrite Hg. simpl. by rewrite Hs.
  - intros a fs w w1 resp e Hg Hs Hr. unfold download. unfold_calls.
    apply Z.eqb_eq in Hs. rewrite Hg. simpl. by rewrite Hs, Hr.
  - intros a fs w w1 e Hg. unfold download. unfold_calls.
    by rewrite Hg.
  - intros l fs w. rewrite Hloop, fetched_files_omap.
    split; [done|]. split; [|apply ask_all_length].
    apply fetch_trace_gets, ask_all_length.
  - intros m w w1 w2 w3 w4 lang translated rs rd Hacc Hd Hl Ht Ha Hdel.
    run_translated Hacc Hd Hl Ht Hloop. rewrite Ha. simpl.
    rewrite Hdel. simpl.
    destruct rd as [[]|e]; simpl.
    + answer_to (svc_webhook_from_url svc (WEBHOOK_URL g)).
      * answer_to_send svc;
          (eexists; split; [reflexivity|]); replay.
      * eexists; split; [reflexivity|]. replay.
    + destruct (isinstance e Forbidden); simpl;
        [eexists; split; [reflexivity|]; replay|].
      destruct (isinstance e NotFound); simpl;
        eexists; (split; [reflexivity|]); replay.
  - intros m w w1 w2 w3 w4 w5 w6 lang translated rs rsend
      Hacc Hd Hl Ht Ha Hdel Hf Hs.
    run_translated Hacc Hd Hl Ht Hloop. rewrite Ha. simpl.
    rewrite Hdel. simpl. rewrite Hf. simpl.
    match goal with
    | |- context [svc_webhook_send svc ?e' w5] =>
        replace e' with
          (repost m translated
             (omap (fun ar => fetched ar.1 ar.2) (zip (attachments m) rs)))
          by (unfold repost; by rewrite fetched_files_omap)
    end.
    rewrite Hs. destruct rsend as [[]|e]; simpl; (split; [done|]);
      do 2 apply list_elem_of_further; apply elem_of_app; right;
      do 2 apply list_elem_of_further; apply list_elem_of_here.
Qed.
End Claims.

(** ** Start-up *)

Lemma main_unfold environ :
  main environ =
    let g := (read_globals environ).1 in
    let out := (read_globals environ).2 in
    if truthy (pyval_of (TOKEN g)) && truthy (pyval_of (WEBHOOK_URL g)) &&
       truthy (pyval_of (DEEPL_API_KEY g)) && negb (TARGET_CHANNEL_ID g =? 0)
    then Running g out
    else Exited (out ++ [error_missing]).
Proof.
  unfold main. destruct (read_globals environ) as [g out]. simpl.
  destruct (truthy (pyval_of (TOKEN g))),
    (truthy (pyval_of (WEBHOOK_URL g))),
    (truthy (pyval_of (DEEPL_API_KEY g))),
    (TARGET_CHANNEL_ID g =? 0); done.
Qed.

Lemma read_globals_fields environ :
  TOKEN (read_globals environ).1 = environ !! "DISCORD_TOKEN" /\
  WEBHOOK_URL (read_globals environ).1 = environ !! "WEBHOOK_URL" /\
  DEEPL_API_KEY (read_globals environ).1 = environ !! "DEEPL_API_KEY" /\
  TARGET_CHANNEL_ID (read_globals environ).1 =
    (read_target_channel_id environ).1 /\
  (read_globals environ).2 = (read_target_channel_id environ).2.
Proof.
  unfold read_globals. by destruct (read_target_channel_id environ).
Qed.

(** The three ways the channel identifier comes out as 0. *)
Lemma read_target_channel_id_zero environ :
  environ !! "TARGET_CHANNEL_ID" = None \/
  (exists s, environ !! "TARGET_CHANNEL_ID" = Some s /\
             (py_int s = None \/ py_int s = Some 0)) ->
  (read_target_channel_id environ).1 = 0.
Proof.
  unfold read_target_channel_id.
  intros [-> | (s & -> & [-> | ->])]; done.
Qed.

Lemma zero_channel_exits environ :
  (read_target_channel_id environ).1 = 0 ->
  main environ = Exited ((read_globals environ).2 ++ [error_missing]).
Proof.
  intros H0. rewrite main_unfold. simpl.
  destruct (read_globals_fields environ) as (_ & _ & _ & -> & _).
  rewrite H0. simpl. by rewrite !andb_false_r.
Qed.

(** C9. When one of the four variables is unset, or TARGET_CHANNEL_ID
    is set to something [int] rejects, the module body ends in [exit()]
    after printing the error: the client is never built or run. *)
Theorem C9_incomplete_configuration_exits (environ : gmap string string) :
  environ !! "DISCORD_TOKEN" = None \/
  environ !! "WEBHOOK_URL" = None \/
  environ !! "DEEPL_API_KEY" = None \/
  environ !! "TARGET_CHANNEL_ID" = None \/
  (exists s, environ !! "TARGET_CHANNEL_ID" = Some s /\ py_int s = None) ->
  main environ = Exited ((read_globals environ).2 ++ [error_missing]).
Proof.
  intros H.
  destruct H as [H|[H|[H|H]]].
  4: { apply zero_channel_exits, read_target_channel_id_zero.
       destruct H as [H|(s & H & Hs)]; [by left|right; eauto]. }
  all: rewrite main_unfold; simpl.
  all: destruct (read_globals_fields environ) as (-> & -> & -> & _ & _).
  all: rewrite H; simpl; by rewrite ?andb_false_r.
Qed.

(** C10. A channel identifier that comes out as 0, because the variable
    is "0", or unset, or rejected by [int] (or any other spelling of
    zero), ends the module body in [exit()] with the same error as a
    missing variable; hence a running client never has 0 as its target
    channel. *)
Theorem C10_zero_channel_exits (environ : gmap string string) :
  environ !! "TARGET_CHANNEL_ID" = Some "0" \/
  environ !! "TARGET_CHANNEL_ID" = None \/
  (exists s, environ !! "TARGET_CHANNEL_ID" = Some s /\
             (py_int s = None \/ py_int s = Some 0)) ->
  TARGET_CHANNEL_ID (read_globals environ).1 = 0 /\
  main environ = Exited ((read_globals environ).2 ++ [error_missing]) /\
  forall environ' g out,
    main environ' = Running g out -> TARGET_CHANNEL_ID g <> 0.
Proof.
  intros H.
  assert (H0 : (read_target_channel_id environ).1 = 0).
  { apply read_target_channel_id_zero.
    destruct H as [H|[H|H]]; [right|by left|by right].
    exists "0". split; [done|by right]. }
  split; [|split].
  - by destruct (read_globals_fields environ) as (_ & _ & _ & -> & _).
  - by apply zero_channel_exits.
  - intros environ' g out. rewrite main_unfold. simpl.
    destruct (TARGET_CHANNEL_ID (read_globals environ').1 =? 0) eqn:Hz.
    + by rewrite andb_false_r.
    + apply Z.eqb_neq in Hz.
      destruct (_ && _ && _); simpl; [|done]. by intros [= <- _].
Qed.

Example py_int_examples :
  py_int "0" = Some 0 /\ py_int " +1_000 " = Some 1000 /\
  py_int "-42" = Some (-42) /\ py_int "007" = Some 7 /\
  py_int EmptyString = None /\ py_int "12a" = None /\ py_int "1__0" = None /\
  py_int "_1" = None /\ py_int "1_" = None /\ py_int "- 1" = None /\
  py_int "1 2" = None /\ py_int "general" = None.
Proof. repeat split; reflexivity. Qed.

(** ** The theorems at work on the sample inputs *)

Ltac here := vm_compute; repeat constructor.

Lemma C1_translated_repost_witness :
  accepted sample_globals with_files /\
  ask_all (scripted all_fine) [chart; notes] (on_get all_fine) =
    (on_get all_fine, []) /\
  svc_delete (scripted all_fine) with_files [] = (Ok tt, []) /\
  on_message (scripted all_fine) sample_globals with_files
    (on_get all_fine) =
    (Ok tt, [],
     [EvDetect "Voici les fichiers" (Ok "fr");
      EvTranslate "Voici les fichiers" "EN-US" (Ok "Hello world");
      EvGet chart (Ok (Response 200 (Ok png)));
      EvGet notes (Ok (Response 404 (Ok [])));
      EvPrint ("Failed to download attachment: " +:+ url notes +:+
               " (Status: 404)");
      EvDelete with_files (Ok tt);
      EvWebhookFromUrl (Some sample_webhook_url) (Ok tt);
      EvWebhookSend
        {| env_content :=
             "Hello world" +:+ newline +:+ "-# [Original] Voici les fichiers";
           env_username := "Alice";
           env_avatar_url := "https://cdn.discordapp.com/embed/avatars/0.png";
           env_files := [File png "chart.png"] |} (Ok tt)]).
Proof.
  split; [by split|]. split; [reflexivity|]. split; [reflexivity|].
  apply (C1_translated_repost (scripted all_fine) sample_globals with_files
           (on_get all_fine) (on_get all_fine) (on_get all_fine)
           [] [] [] [] "fr" "Hello world" (on_get all_fine));
    first [reflexivity | discriminate | by split].
Defined.



Lemma C3_translation_error_aborts_witness :
  EvTranslate "Bonjour le monde" "EN-US" (on_translate quota_exceeded)
    ∈ trace_of (scripted quota_exceeded) sample_globals bonjour [] /\
  none is_delete
    (trace_of (scripted quota_exceeded) sample_globals bonjour []) /\
  none is_webhook
    (trace_of (scripted quota_exceeded) sample_globals bonjour []) /\
  result_of (scripted quota_exceeded) sample_globals bonjour [] = Ok tt /\
  List.filter is_print
    (trace_of (scripted quota_exceeded) sample_globals bonjour []) =
    [EvPrint ("Error translating message: " +:+
              "Quota for this billing period has been exceeded")].
Proof.
  assert (H : EvTranslate "Bonjour le monde" "EN-US"
                (on_translate quota_exceeded)
    ∈ trace_of (scripted quota_exceeded) sample_globals bonjour [])
    by here.
  split; [exact H|].
  destruct (C3_translation_error_aborts (scripted quota_exceeded)
              sample_globals bonjour [] _ _ _ H) as (Hd & Hw & Hp).
  split; [exact Hd|]. split; [exact Hw|]. by apply Hp.
Defined.

Lemma C4_deletion_error_aborts_witness :
  EvDelete with_files (on_delete delete_forbidden)
    ∈ trace_of (scripted delete_forbidden) sample_globals with_files
        (on_get delete_forbidden) /\
  none is_webhook
    (trace_of (scripted delete_forbidden) sample_globals with_files
       (on_get delete_forbidden)) /\
  result_of (scripted delete_forbidden) sample_globals with_files
    (on_get delete_forbidden) = Ok tt.
Proof.
  assert (H : EvDelete with_files (on_delete delete_forbidden)
    ∈ trace_of (scripted delete_forbidden) sample_globals with_files
        (on_get delete_forbidden)) by here.
  split; [exact H|].
  destruct (C4_deletion_error_aborts (scripted delete_forbidden)
              sample_globals with_files with_files
              (on_get delete_forbidden) _ H) as (Hw & Hr & _).
  - by left.
  - by split.
Defined.

Lemma C5_filtered_message_no_effect_witness :
  channel_id elsewhere <> TARGET_CHANNEL_ID sample_globals /\
  bot (author from_bot) = true /\
  on_message (scripted all_fine) sample_globals elsewhere (on_get all_fine) =
    (Ok tt, on_get all_fine, []) /\
  on_message (scripted all_fine) sample_globals from_bot (on_get all_fine) =
    (Ok tt, on_get all_fine, []).
Proof.
  split; [discriminate|]. split; [reflexivity|]. split.
  - apply C5_filtered_message_no_effect. left. discriminate.
  - apply C5_filtered_message_no_effect. right. reflexivity.
Defined.

Lemma C6_english_left_untouched_witness :
  accepted sample_globals bonjour /\
  on_message (scripted in_english) sample_globals bonjour [] =
    (Ok tt, [], [EvDetect "Bonjour le monde" (Ok "en")]).
Proof.
  split; [by split|].
  apply C6_english_left_untouched; [by split | reflexivity].
Defined.

Lemma C7_attachments_fetched_independently_witness :
  svc_get (scripted all_fine) (url chart) (on_get all_fine) =
    (Ok (Response 200 (Ok png)), [Ok (Response 404 (Ok []))]) /\
  download (scripted all_fine) chart [] (on_get all_fine) =
    (Ok [File png "chart.png"], [Ok (Response 404 (Ok []))],
     [EvGet chart (Ok (Response 200 (Ok png)))]) /\
  download (scripted all_fine) notes [File png "chart.png"]
    [Ok (Response 404 (Ok []))] =
    (Ok [File png "chart.png"], [],
     [EvGet notes (Ok (Response 404 (Ok [])));
      EvPrint ("Failed to download attachment: " +:+ url notes +:+
               " (Status: 404)")]).
Proof.
  split; [reflexivity|].
  destruct (C7_attachments_fetched_independently (scripted all_fine)
              sample_globals) as (H200 & Hother & _).
  split.
  - apply (H200 chart [] (on_get all_fine) [Ok (Response 404 (Ok []))]
             (Response 200 (Ok png)) png); reflexivity.
  - apply (Hother notes [File png "chart.png"] [Ok (Response 404 (Ok []))]
             [] (Response 404 (Ok []))); [reflexivity|discriminate].
Defined.

Lemma C8_detection_error_aborts_witness :
  accepted sample_globals bonjour /\
  on_message (scripted detection_down) sample_globals bonjour [] =
    (Ok tt, [],
     [EvDetect "Bonjour le monde" (Raise (Exn OtherException "timed out"));
      EvPrint ("Error detecting language: " +:+ "timed out")]).
Proof.
  split; [by split|].
  apply (C8_detection_error_aborts (scripted detection_down));
    [by split | reflexivity].
Defined.

Lemma C9_incomplete_configuration_exits_witness :
  no_deepl_key !! "DEEPL_API_KEY" = None /\
  py_int "general" = None /\
  main no_deepl_key = Exited [error_missing] /\
  main channel_by_name = Exited [warning_invalid; error_missing].
Proof.
  split; [reflexivity|]. split; [reflexivity|]. split.
  - apply (C9_incomplete_configuration_exits no_deepl_key).
    right. right. left. reflexivity.
  - apply (C9_incomplete_configuration_exits channel_by_name).
    do 4 right. exists "general". split; reflexivity.
Defined.

Lemma C10_zero_channel_exits_witness :
  channel_zero !! "TARGET_CHANNEL_ID" = Some "0" /\
  main channel_zero = Exited [error_missing].
Proof.
  split; [reflexivity|].
  apply (C10_zero_channel_exits channel_zero). left. reflexivity.
Defined.

(** Values of CPython 3.11 outside ASCII: fullwidth and Arabic-Indic
    digits, an em space and a no-break space count; a superscript two,
    a control character and ill-formed bytes do not. *)
Example py_int_unicode_examples :
  py_int "４２" = Some 42 /\ py_int "٣" = Some 3 /\
  py_int "١٢_٣" = Some 123 /\ py_int "-５" = Some (-5) /\
  py_int " ٣ " = Some 3 /\ py_int "4２" = Some 42 /\
  py_int "²" = None /\ py_int "٣٤_" = None /\
  py_int (String (ascii_of_nat 31) "5") = None /\
  py_int (String (ascii_of_nat 255) "5") = None.
Proof. repeat split; reflexivity. Qed.

(** ** The scenarios of the specification, run *)

Example scenario_bonjour :
  play all_fine sample_globals bonjour =
    (Ok tt,
     [EvDetect "Bonjour le monde" (Ok "fr");
      EvTranslate "Bonjour le monde" "EN-US" (Ok "Hello world");
      EvDelete bonjour (Ok tt);
      EvWebhookFromUrl (Some sample_webhook_url)
        (Ok tt);
      EvWebhookSend
        {| env_content :=
             "Hello world" +:+ newline +:+ "-# [Original] Bonjour le monde";
           env_username := "Alice";
           env_avatar_url := "https://cdn.discordapp.com/embed/avatars/0.png";
           env_files := [] |} (Ok tt)]).
Proof. reflexivity. Qed.

Example scenario_second_attachment_404 :
  play all_fine sample_globals with_files =
    (Ok tt,
     [EvDetect "Voici les fichiers" (Ok "fr");
      EvTranslate "Voici les fichiers" "EN-US" (Ok "Hello world");
      EvGet chart (Ok (Response 200 (Ok png)));
      EvGet notes (Ok (Response 404 (Ok [])));
      EvPrint ("Failed to download attachment: " +:+
               "https://cdn.discordapp.com/attachments/2/notes.txt" +:+
               " (Status: 404)");
      EvDelete with_files (Ok tt);
      EvWebhookFromUrl (Some sample_webhook_url)
        (Ok tt);
      EvWebhookSend
        {| env_content :=
             "Hello world" +:+ newline +:+ "-# [Original] Voici les fichiers";
           env_username := "Alice";
           env_avatar_url := "https://cdn.discordapp.com/embed/avatars/0.png";
           env_files := [File png "chart.png"] |} (Ok tt)]).
Proof. reflexivity. Qed.

Example scenario_quota_exceeded :
  play quota_exceeded sample_globals bonjour =
    (Ok tt,
     [EvDetect "Bonjour le monde" (Ok "fr");
      EvTranslate "Bonjour le monde" "EN-US"
        (Raise (Exn QuotaExceededException
                    "Quota for this billing period has been exceeded"));
      EvPrint ("Error translating message: " +:+
               "Quota for this billing period has been exceeded")]).
Proof. reflexivity. Qed.

Example scenario_delete_forbidden :
  play delete_forbidden sample_globals with_files =
    (Ok tt,
     [EvDetect "Voici les fichiers" (Ok "fr");
      EvTranslate "Voici les fichiers" "EN-US" (Ok "Hello world");
      EvGet chart (Ok (Response 200 (Ok png)));
      EvGet notes (Ok (Response 404 (Ok [])));
      EvPrint ("Failed to download attachment: " +:+
               "https://cdn.discordapp.com/attachments/2/notes.txt" +:+
               " (Status: 404)");
      EvDelete with_files (Raise (Exn Forbidden "403 Forbidden"));
      EvPrint "Bot lacks permission to delete the message."]).
Proof. reflexivity. Qed.

Example scenario_configured :
  main full_environ = Running sample_globals [].
Proof. reflexivity. Qed.

(** Two runs the claims above leave room for.  An image-only message has
    an empty text, which the DeepL client refuses with a [ValueError]:
    the handler does not catch it. *)
Example scenario_uncaught_translation_error :
  play empty_text sample_globals bonjour =
    (Raise (Exn ValueError "text must not be empty"),
     [EvDetect "Bonjour le monde" (Ok "fr");
      EvTranslate "Bonjour le monde" "EN-US"
        (Raise (Exn ValueError "text must not be empty"))]).
Proof. reflexivity. Qed.

(** A webhook URL that [Webhook.from_url] refuses: the original is
    deleted, the repost step stops at the construction of the webhook. *)
Example scenario_bad_webhook_url :
  play bad_webhook_url misconfigured_globals bonjour =
    (Ok tt,
     [EvDetect "Bonjour le monde" (Ok "fr");
      EvTranslate "Bonjour le monde" "EN-US" (Ok "Hello world");
      EvDelete bonjour (Ok tt);
      EvWebhookFromUrl (Some "webhook")
        (Raise (Exn ValueError "Invalid webhook URL given."));
      EvPrint ("Error creating webhook: " +:+ "Invalid webhook URL given.")]).
Proof. reflexivity. Qed.

(** * Further properties of the handler *)

(** Finds an event in a trace of a known shape. *)
Ltac mem :=
  repeat first [ apply list_elem_of_here
               | apply list_elem_of_further
               | apply elem_of_app; right ].

Section Pipeline.
Context {W : Type} (svc : services W) (g : globals).

(** Takes the trace of an invocation apart by its executions, keeping
    what the services were asked. *)
Ltac executions svc g m w Hp :=
  assert (Hp : performs svc w (trace_of svc g m w) (world_of svc g m w))
    by asked_by_unfolding svc g m w;
  revert Hp; generalize (world_of svc g m w);
  destruct (on_message_run svc g m w); intros ? Hp.

(** Two answers to the same call in the same world are one. *)
Ltac same_answer :=
  repeat match goal with
  | H1 : ?f = _, H2 : ?f = _ |- _ => rewrite H1 in H2; simplify_eq
  end.

Lemma ignored_world (m : message) (w : W) :
  ~ accepted g m -> world_of svc g m w = w.
Proof.
  intros Hn. unfold world_of, on_message.
  destruct (channel_id m =? TARGET_CHANNEL_ID g) eqn:Hc; simpl; [|done].
  destruct (bot (author m)) eqn:Hb; simpl; [done|].
  destruct Hn. split; [by apply Z.eqb_eq|done].
Qed.

(** X1. The handler does something exactly for the messages of the target
    channel whose author is no bot.  For these its first act is to ask
    the detection service for the language of the text, in the world it
    starts from; the answer is what the trace records first, detection
    is not asked again, and the rest of the trace is what the services
    were asked after it.  For the others the world is left as it was. *)
Theorem detection_first_iff_accepted (m : message) (w : W) :
  (accepted g m <-> trace_of svc g m w <> []) /\
  (accepted g m ->
   exists t,
     trace_of svc g m w =
       EvDetect (content m) (svc_detect svc (content m) w).1 :: t /\
     none is_detect t /\
     performs svc (svc_detect svc (content m) w).2 t
       (world_of svc g m w)) /\
  (~ accepted g m -> world_of svc g m w = w).
Proof.
  split; [|split; [|apply ignored_world]].
  - destruct (on_message_run svc g m w) as [Hc|Hc Hb| | | | | | | | | |];
      (split; [intros Ha|intros Hne]);
      try done; destruct Ha as [Ha Hb']; congruence.
  - intros Ha. executions svc g m w Hp;
      try (destruct Ha as [Ha Hb']; congruence);
      inv Hp;
      match goal with
      | H : svc_detect svc _ _ = _ |- _ => rewrite H; simpl
      end;
      (eexists; split; [reflexivity|]; split; [no_such_event|done]).
Qed.

(** X2. The translation service is asked exactly when detection answered
    a code other than "en": it is then asked next, for the text of the
    message into "EN-US", in the world detection left, and its answer
    is what the trace records. *)
Theorem translation_iff_foreign (m : message) (w : W) :
  performs svc w (trace_of svc g m w) (world_of svc g m w) /\
  ((exists text target r, EvTranslate text target r ∈ trace_of svc g m w) <->
   (exists text lang,
      EvDetect text (Ok lang) ∈ trace_of svc g m w /\ lang <> "en")) /\
  (forall lang w1,
     accepted g m ->
     svc_detect svc (content m) w = (Ok lang, w1) ->
     lang <> "en" ->
     exists t,
       trace_of svc g m w =
         EvDetect (content m) (Ok lang)
         :: EvTranslate (content m) "EN-US"
              (svc_translate_text svc (content m) "EN-US" w1).1
         :: t /\
       performs svc (svc_translate_text svc (content m) "EN-US" w1).2 t
         (world_of svc g m w)) /\
  (forall r w1,
     accepted g m ->
     svc_detect svc (content m) w = (r, w1) ->
     (forall lang, r = Ok lang -> lang = "en") ->
     world_of svc g m w = w1 /\
     none is_translate (trace_of svc g m w)).
Proof.
  split; [asked_by_unfolding svc g m w|]. split; [|split].
  - destruct (on_message_run svc g m w);
      (split; [intros (text & target & r & Hin)
              |intros (text & lang' & Hin & Hl)]);
      in_trace Hin; simplify_eq;
      try (eexists _, _; split; [mem|done]);
      try (eexists _, _, _; mem).
  - intros lang0 w1 Ha Hd Hl. executions svc g m w Hp;
      try (destruct Ha as [Ha Hb']; congruence);
      inv Hp; same_answer; try done;
      match goal with
      | H : performs svc _ (EvTranslate _ _ _ :: _) _ |- _ => inv H
      end;
      match goal with
      | H : svc_translate_text svc _ _ _ = _ |- _ => rewrite H; simpl
      end;
      by eexists.
  - intros r w1 Ha Hd Hen. executions svc g m w Hp;
      try (destruct Ha as [Ha Hb']; congruence);
      inv Hp; same_answer;
      try (match goal with
           | H : _ <> "en" |- _ => destruct H; by apply Hen
           end);
      match goal with
      | H : performs svc _ _ _ |- _ => inv H
      end;
      try match goal with
      | H : performs svc _ [] _ |- _ => inv H
      end;
      by split.
Qed.

(** X3. The attachments are requested, and the deletion is attempted,
    exactly when the translation call returned: then there is one GET
    per attachment and one deletion attempt; otherwise there is none of
    either.  These calls are what the CDN and the chat platform were
    asked: once the text is translated, the CDN is asked for each
    attachment in order, and the deletion is asked next, in the world
    the last GET left. *)
Theorem deletion_iff_translated (m : message) (w : W) :
  performs svc w (trace_of svc g m w) (world_of svc g m w) /\
  ((exists m' r, EvDelete m' r ∈ trace_of svc g m w) <->
   (exists text target translated,
      EvTranslate text target (Ok translated) ∈ trace_of svc g m w)) /\
  ((exists m' r, EvDelete m' r ∈ trace_of svc g m w) ->
   length (List.filter is_get (trace_of svc g m w)) =
     length (attachments m) /\
   length (List.filter is_delete (trace_of svc g m w)) = 1%nat) /\
  ((forall m' r, EvDelete m' r ∉ trace_of svc g m w) ->
   List.filter is_get (trace_of svc g m w) = []) /\
  (forall lang translated w1 w2,
     accepted g m ->
     svc_detect svc (content m) w = (Ok lang, w1) ->
     lang <> "en" ->
     svc_translate_text svc (content m) "EN-US" w1 = (Ok translated, w2) ->
     exists rest,
       trace_of svc g m w =
         EvDetect (content m) (Ok lang)
         :: EvTranslate (content m) "EN-US" (Ok translated)
         :: fetch_trace (attachments m)
              (ask_all svc (attachments m) w2).1
         ++ EvDelete m
              (svc_delete svc m (ask_all svc (attachments m) w2).2).1
         :: rest).
Proof.
  split; [asked_by_unfolding svc g m w|].
  split; [|split; [|split]].
  4: { intros lang translated w1 w2 Ha Hd Hl Ht.
       assert (Hloop : loop_asks svc) by loop_by_unfolding.
       run_translated Ha Hd Hl Ht Hloop.
       destruct (ask_all svc (attachments m) w2) as [rs w3]. simpl.
       destruct (svc_delete svc m w3) as [[[]|e] w4]; simpl.
       - destruct (svc_webhook_from_url svc (WEBHOOK_URL g) w4)
           as [[[]|e] w5]; simpl; [|by eexists].
         answer_to_send svc; by eexists.
       - destruct (isinstance e Forbidden); simpl; [by eexists|].
         destruct (isinstance e NotFound); simpl; by eexists. }
  all: destruct (on_message_run svc g m w) as
    [| | | | | |lang tr rs e ? ? Hlen|lang tr rs e ? ? Hlen
     |lang tr rs e ? ? Hlen|lang tr rs e ? ? Hlen
     |lang tr rs e ? ? Hlen|lang tr rs ? ? Hlen].
  1-12: (split; [intros (m' & r & Hin)|intros (text & target & t & Hin)];
         in_trace Hin; simplify_eq;
         first [eexists _, _, _; by mem | eexists _, _; by mem]).
  1-12: (intros (m' & r & Hin); in_trace Hin; simplify_eq;
         split; filter_trace; try done;
         rewrite fetch_trace_gets, app_nil_r by done;
         rewrite length_zip_with; lia).
  all: try (intros _; by filter_trace).
  all: intros Hno; exfalso; eapply Hno; by mem.
Qed.

Lemma fetch_trace_calls l : forall rs,
  length rs = length l ->
  calls (fetch_trace l rs) = zip_with EvGet l rs.
Proof.
  unfold calls.
  induction l as [|a l IH]; intros [|r rs] Hlen; simpl in *; try done.
  rewrite List.filter_app, (filter_none _ (fetch_log a r)); simpl.
  - f_equal. apply IH. lia.
  - intros ev Hev. apply fetch_log_print in Hev. by destruct ev.
Qed.

Lemma gets_in_order l : forall rs,
  StronglySorted in_order (zip_with EvGet l rs).
Proof.
  induction l as [|a l IH]; intros [|r rs]; simpl; try constructor.
  - apply IH.
  - apply Forall_forall. intros ev Hev.
    apply elem_of_zip_with in Hev as (a' & r' & -> & _). by right.
Qed.

Lemma fetch_trace_get l rs a r :
  EvGet a r ∈ fetch_trace l rs -> a ∈ l.
Proof.
  revert rs. induction l as [|a' l IH]; intros [|r' rs]; simpl;
    try (intros H; by apply elem_of_nil in H).
  rewrite elem_of_cons, elem_of_app. intros [[= -> _]|[H|H]].
  - apply list_elem_of_here.
  - by apply fetch_log_print in H.
  - apply list_elem_of_further. by eapply IH.
Qed.

(** X4. The calls of an invocation come in the order of the pipeline:
    detection, translation, the GETs, deletion, webhook construction,
    send.  No step is repeated, apart from the GETs of the loop, and
    no call of an earlier step follows one of a later step. *)
Theorem calls_in_pipeline_order (m : message) (w : W) :
  StronglySorted in_order (calls (trace_of svc g m w)).
Proof.
  assert (Hget : forall ev l rs,
            ev ∈ zip_with EvGet l rs -> stage ev = 2%nat).
  { intros ev l rs Hev.
    by apply elem_of_zip_with in Hev as (a' & r' & -> & _). }
  unfold calls.
  destruct (on_message_run svc g m w) as
    [| | | | | |lang tr rs e ? ? Hlen|lang tr rs e ? ? Hlen
     |lang tr rs e ? ? Hlen|lang tr rs e ? ? Hlen
     |lang tr rs e ? ? Hlen|lang tr rs ? ? Hlen]; simpl.
  1-6: repeat (apply SSorted_cons; [|repeat constructor; left; simpl; lia]);
       apply SSorted_nil.
  all: rewrite List.filter_app; fold (calls (fetch_trace (attachments m) rs));
       rewrite fetch_trace_calls by done; simpl.
  all: do 2 (apply StronglySorted_cons; split;
    [rewrite ?Forall_cons, Forall_app; repeat split;
     [..|apply Forall_forall; intros ev Hev; left;
         rewrite (Hget _ _ _ Hev); simpl; lia
        |repeat constructor; left; simpl; lia];
     left; simpl; lia|]).
  all: apply StronglySorted_app_2; [|apply gets_in_order|].
  all: try (intros x1 x2 Hx1 Hx2; left; rewrite (Hget _ _ _ Hx1);
            in_trace Hx2; subst; simpl; lia).
  all: repeat (apply SSorted_cons; [|repeat constructor; left; simpl; lia]);
       apply SSorted_nil.
Qed.

(** X5. What the services are asked in an invocation is about the
    message in hand: the trace is what they were asked, call for call,
    and in it the text detected and translated is the content of the
    message, the target language is "EN-US", every GET is for one of
    its attachments, the message deleted is this one, the webhook is
    built from [WEBHOOK_URL], and what is sent carries the author's
    name and avatar and ends with the original text. *)
Theorem calls_concern_the_message (m : message) (w : W) :
  performs svc w (trace_of svc g m w) (world_of svc g m w) /\
  Forall (concerns g m) (trace_of svc g m w).
Proof.
  split; [asked_by_unfolding svc g m w|].
  assert (Hloop : forall ev rs,
            ev ∈ fetch_trace (attachments m) rs -> concerns g m ev).
  { intros ev rs Hev.
    destruct (fetch_trace_kind _ _ _ Hev) as [Hk|Hk];
      destruct ev; try discriminate; simpl; [|done].
    by eapply fetch_trace_get. }
  apply Forall_forall. intros ev Hev.
  destruct (on_message_run svc g m w); in_trace Hev; subst; simpl;
    try done; try (by eapply Hloop); by eauto.
Qed.

(** X6. An exception leaves the handler in two cases only: the
    translation call raised something that is no [DeepLException], or
    the deletion raised something that is neither [Forbidden] nor
    [NotFound].  The failed call is then the last event, nothing is
    printed about it, and no webhook call was made. *)
Theorem exception_escapes_iff (m : message) (w : W) (e : exn) :
  (result_of svc g m w = Raise e <->
   (EvTranslate (content m) "EN-US" (Raise e) ∈ trace_of svc g m w /\
    isinstance e DeepLException = false) \/
   (EvDelete m (Raise e) ∈ trace_of svc g m w /\
    isinstance e Forbidden = false /\ isinstance e NotFound = false)) /\
  (result_of svc g m w = Raise e ->
   (last (trace_of svc g m w) =
      Some (EvTranslate (content m) "EN-US" (Raise e)) \/
    last (trace_of svc g m w) = Some (EvDelete m (Raise e))) /\
   none is_webhook (trace_of svc g m w)).
Proof.
  destruct (on_message_run svc g m w).
  all: split;
    [split; [intros [= <-]|intros [[Hin ?]|[Hin [? ?]]]; in_trace Hin;
                           simplify_eq; try congruence]
    |intros [= <-]].
  all: try done.
  - left. split; [by mem|done].
  - split; [by left | no_such_event].
  - right. split; [by mem|done].
  - split; [|no_such_event]. right.
    by rewrite !last_cons, last_snoc.
Qed.

(** X7. An exception of the webhook construction or of the send never
    leaves the handler: it is printed as the last event and the handler
    returns normally.  By then the original is deleted, and no send has
    succeeded. *)
Theorem webhook_error_swallowed (m : message) (w : W) (e : exn) :
  ((exists u, EvWebhookFromUrl u (Raise e) ∈ trace_of svc g m w) ->
   result_of svc g m w = Ok tt /\
   last (trace_of svc g m w) =
     Some (EvPrint ("Error creating webhook: " +:+ str e)) /\
   EvDelete m (Ok tt) ∈ trace_of svc g m w /\
   none is_send (trace_of svc g m w)) /\
  ((exists env, EvWebhookSend env (Raise e) ∈ trace_of svc g m w) ->
   result_of svc g m w = Ok tt /\
   last (trace_of svc g m w) =
     Some (EvPrint ("Error sending webhook message: " +:+ str e)) /\
   EvDelete m (Ok tt) ∈ trace_of svc g m w /\
   forall env', EvWebhookSend env' (Ok tt) ∉ trace_of svc g m w).
Proof.
  destruct (on_message_run svc g m w);
    (split; [intros (u & Hin)|intros (env & Hin)]);
    in_trace Hin; simplify_eq.
  - split; [done|]. split; [|split; [by mem|no_such_event]].
    rewrite !last_cons, last_app. done.
  - split; [done|]. split; [|split; [by mem|]].
    + rewrite !last_cons, last_app. done.
    + intros env' Hin. in_trace Hin.
Qed.

(** One attachment gives a file or a console line, never both. *)
Lemma fetched_or_logged a r :
  (exists b, fetched a r = Some (File b (filename a)) /\ fetch_log a r = []) \/
  (exists line, fetched a r = None /\ fetch_log a r = [EvPrint line]).
Proof.
  unfold fetched, fetch_log.
  destruct r as [resp|e]; [destruct (status resp =? 200);
    [destruct (read resp)|]|]; eauto.
Qed.

Lemma fetch_accounting l : forall rs,
  length rs = length l ->
  (length (fetched_files l rs) +
   length (List.filter is_print (fetch_trace l rs)))%nat = length l.
Proof.
  induction l as [|a l IH]; intros [|r rs] Hlen; simpl in *; try done.
  rewrite List.filter_app, !length_app.
  specialize (IH rs ltac:(lia)).
  destruct (fetched_or_logged a r) as [(b & -> & ->)|(line & -> & ->)];
    simpl; lia.
Qed.

Lemma fetch_silent_all_named l : forall rs,
  length rs = length l ->
  List.filter is_print (fetch_trace l rs) = [] ->
  file_name <$> fetched_files l rs = filename <$> l.
Proof.
  induction l as [|a l IH]; intros [|r rs] Hlen; simpl in *; try done.
  rewrite List.filter_app.
  destruct (fetched_or_logged a r) as [(b & -> & ->)|(line & -> & ->)];
    simpl; [|done].
  intros Hs. f_equal. apply IH; [lia|done].
Qed.

(** X8. The handler never fails in silence.  If it returns normally and
    has printed nothing, then it ignored the message, or the text was
    in English, or the original is deleted and the repost is sent, with
    every attachment of the message under its name, in order.  These
    are the calls the services received: the trace is what they were
    asked and answered. *)
Theorem silent_return_means_done (m : message) (w : W) :
  result_of svc g m w = Ok tt ->
  none is_print (trace_of svc g m w) ->
  performs svc w (trace_of svc g m w) (world_of svc g m w) /\
  (trace_of svc g m w = [] \/
   trace_of svc g m w = [EvDetect (content m) (Ok "en")] \/
   exists e,
     EvWebhookSend e (Ok tt) ∈ trace_of svc g m w /\
     EvDelete m (Ok tt) ∈ trace_of svc g m w /\
     file_name <$> env_files e = filename <$> attachments m).
Proof.
  intros Hr Hs. split; [asked_by_unfolding svc g m w|].
  destruct (on_message_run svc g m w) as
    [| | | | | | | | | | |lang tr rs ? ? Hlen]; try discriminate Hr;
    try (by left); try (by right; left);
    try (revert Hs; filter_trace; by try destruct (List.filter _ _)).
  right. right. eexists. split; [by mem|]. split; [by mem|]. simpl.
  apply fetch_silent_all_named; [done|].
  revert Hs. filter_trace. by rewrite app_nil_r.
Qed.

(** X9. When the webhook has been asked to send an envelope and has
    answered, every attachment of the message is either among the
    files of that envelope or has left a console line: the files and
    the printed lines together are as many as the attachments.  The
    trace is what the services were asked and answered. *)
Theorem every_attachment_reposted_or_logged (m : message) (w : W)
    (e : envelope) :
  EvWebhookSend e (Ok tt) ∈ trace_of svc g m w ->
  performs svc w (trace_of svc g m w) (world_of svc g m w) /\
  (length (env_files e) +
   length (List.filter is_print (trace_of svc g m w)))%nat =
    length (attachments m).
Proof.
  intros Hin. split; [asked_by_unfolding svc g m w|].
  destruct (on_message_run svc g m w) as
    [| | | | | | | | | | |lang tr rs ? ? Hlen]; in_trace Hin; simplify_eq.
  filter_trace. rewrite app_nil_r. by apply fetch_accounting.
Qed.

(** X10. The attachment loop never raises, and what it has gathered so
    far neither changes what it does nor is changed by it: the files it
    returns are those it was given followed by those it fetches, and
    its calls and console lines are the same whatever it was given. *)
Theorem download_all_keeps_gathered (l : list attachment) (w : W) :
  exists fetched_now w' t,
    forall fs, download_all svc l fs w = (Ok (fs ++ fetched_now), w', t).
Proof.
  revert w. induction l as [|a l IH]; intros w; simpl.
  - exists [], w, []. intros fs. by rewrite app_nil_r.
  - unfold bind. destruct (svc_get svc (url a) w) as [r w1] eqn:Hget.
    destruct (IH w1) as (fs' & w' & t & Hl).
    exists (option_list (fetched a r) ++ fs'), w',
      ((EvGet a r :: fetch_log a r) ++ t).
    intros fs. rewrite download_eq, Hget, Hl. by rewrite <- app_assoc.
Qed.

End Pipeline.

(** * Further properties of the repost text *)

Lemma append_length (s1 s2 : string) :
  String.length (s1 +:+ s2) = (String.length s1 + String.length s2)%nat.
Proof. induction s1 as [|c s1 IH]; simpl; [done|by rewrite IH]. Qed.

(** X12. The content of a repost is 15 characters longer than the
    translated and the original text together: the line break and the
    marker "-# [Original] ". *)
Theorem final_content_length (translated_text original : string) :
  String.length (final_content translated_text original) =
    (String.length translated_text + String.length original + 15)%nat.
Proof.
  unfold final_content. rewrite !append_length. simpl. lia.
Qed.

Lemma split_at_first_newline (t1 t2 r1 r2 : string) :
  single_line t1 = true -> single_line t2 = true ->
  t1 +:+ String (ascii_of_nat 10) r1 = t2 +:+ String (ascii_of_nat 10) r2 ->
  t1 = t2 /\ r1 = r2.
Proof.
  revert t2. induction t1 as [|c t1 IH]; intros [|c' t2]; simpl.
  - by intros _ _ [= ->].
  - intros _ Hc [= <- _]. by rewrite Ascii.eqb_refl in Hc.
  - intros Hc _ [= -> _]. by rewrite Ascii.eqb_refl in Hc.
  - intros [_ H1]%andb_prop [_ H2]%andb_prop [= -> Heq].
    destruct (IH t2 H1 H2 Heq) as [-> ->]. done.
Qed.

(** X13. When the translated text is a single line, a repost can be
    read back: two reposts with the same content have the same
    translated text and the same original text. *)
Theorem final_content_read_back (t1 o1 t2 o2 : string) :
  single_line t1 = true -> single_line t2 = true ->
  final_content t1 o1 = final_content t2 o2 ->
  t1 = t2 /\ o1 = o2.
Proof.
  unfold final_content. intros H1 H2 Heq.
  change (t1 +:+ String (ascii_of_nat 10) ("-# [Original] " +:+ o1) =
          t2 +:+ String (ascii_of_nat 10) ("-# [Original] " +:+ o2)) in Heq.
  destruct (split_at_first_newline _ _ _ _ H1 H2 Heq) as [-> Hr].
  split; [done|]. simpl in Hr. by simplify_eq.
Qed.

(** Without that, the marker inside a text makes two readings. *)
Example final_content_ambiguous :
  final_content ("a" +:+ newline +:+ "-# [Original] b") "c" =
  final_content "a" ("b" +:+ newline +:+ "-# [Original] c").
Proof. reflexivity. Qed.

(** * Further properties of the start-up *)

Lemma truthy_pyval_of (o : option string) :
  truthy (pyval_of o) = true <-> exists s, o = Some s /\ s <> EmptyString.
Proof.
  destruct o as [s|]; simpl.
  - rewrite negb_true_iff, String.eqb_neq. split.
    + intros Hs. by exists s.
    + by intros (s' & [= <-] & Hs).
  - split; [done|]. by intros (s & Hs & _).
Qed.

Lemma read_target_channel_id_spec environ n out :
  read_target_channel_id environ = (n, out) ->
  n <> 0 ->
  exists s, environ !! "TARGET_CHANNEL_ID" = Some s /\
            py_int s = Some n /\ out = [].
Proof.
  unfold read_target_channel_id.
  destruct (environ !! "TARGET_CHANNEL_ID") as [s|];
    [|intros [= <- _] Hn; by destruct Hn].
  destruct (py_int s) as [k|] eqn:Hp; [|intros [= <- _] Hn; by destruct Hn].
  intros [= <- <-] _. by exists s.
Qed.

(** When the client runs, and with what. *)
Lemma running_spec (environ : gmap string string)
    (g : globals) (out : list string) :
  main environ = Running g out <->
  exists t u k s n,
    environ !! "DISCORD_TOKEN" = Some t /\ t <> EmptyString /\
    environ !! "WEBHOOK_URL" = Some u /\ u <> EmptyString /\
    environ !! "DEEPL_API_KEY" = Some k /\ k <> EmptyString /\
    environ !! "TARGET_CHANNEL_ID" = Some s /\
    py_int s = Some n /\ n <> 0 /\
    g = {| TOKEN := Some t; WEBHOOK_URL := Some u;
           DEEPL_API_KEY := Some k; TARGET_CHANNEL_ID := n |} /\
    out = [].
Proof.
  rewrite main_unfold. simpl.
  destruct (read_globals_fields environ) as (Ht & Hu & Hk & Hn & Ho).
  destruct (read_target_channel_id environ) as [n o] eqn:Hread.
  simpl in Hn, Ho.
  destruct (_ && _ && _ && _) eqn:Hall.
  - apply andb_prop in Hall as [[[H1%truthy_pyval_of H2%truthy_pyval_of]
      %andb_prop H3%truthy_pyval_of]%andb_prop
      H4%negb_true_iff%Z.eqb_neq].
    rewrite Ht in H1. rewrite Hu in H2. rewrite Hk in H3. rewrite Hn in H4.
    destruct H1 as (t & Et & ?), H2 as (u & Eu & ?), H3 as (k & Ek & ?).
    destruct (read_target_channel_id_spec _ _ _ Hread H4)
      as (s & Es & Ep & ->).
    split.
    + intros [= <- <-]. exists t, u, k, s, n.
      repeat (split; [done|]). split; [|done].
      destruct (read_globals environ).1; simpl in *. congruence.
    + intros (t' & u' & k' & s' & n' & ? & _ & ? & _ & ? & _ & ?
              & ? & _ & -> & ->).
      simplify_eq. f_equal; [|done].
      destruct (read_globals environ).1; simpl in *. congruence.
  - split; [done|].
    intros (t & u & k & s & n' & Et & ? & Eu & ? & Ek & ? & Es & Ep & ?
            & _ & _).
    assert (n = n') as ->.
    { unfold read_target_channel_id in Hread.
      rewrite Es, Ep in Hread. congruence. }
    rewrite Ht, Hu, Hk, Hn, Et, Eu, Ek in Hall. simpl in Hall.
    rewrite !(proj2 (negb_true_iff _)) in Hall
      by (by apply String.eqb_neq).
    simpl in Hall. apply negb_false_iff, Z.eqb_eq in Hall. done.
Qed.

(** X14. The client is built and run exactly when the token, the webhook
    URL and the API key are set to non-empty strings and
    TARGET_CHANNEL_ID is set to something [int] reads as a number other
    than 0, negative numbers included.  The globals are then those
    values, and nothing has been printed. *)
Theorem main_running_iff (environ : gmap string string)
    (g : globals) (out : list string) :
  main environ = Running g out <->
  exists t u k s n,
    environ !! "DISCORD_TOKEN" = Some t /\ t <> EmptyString /\
    environ !! "WEBHOOK_URL" = Some u /\ u <> EmptyString /\
    environ !! "DEEPL_API_KEY" = Some k /\ k <> EmptyString /\
    environ !! "TARGET_CHANNEL_ID" = Some s /\
    py_int s = Some n /\ n <> 0 /\
    g = {| TOKEN := Some t; WEBHOOK_URL := Some u;
           DEEPL_API_KEY := Some k; TARGET_CHANNEL_ID := n |} /\
    out = [].
Proof. apply running_spec. Qed.

(** X15. What the start-up prints: nothing when the client runs; the
    error alone when it exits; the warning and then the error when
    TARGET_CHANNEL_ID is set to something [int] rejects, and only then.
    The default of 0 the warning announces always ends in the exit. *)
Theorem startup_console (environ : gmap string string) :
  match main environ with
  | Running _ out => out = []
  | Exited out =>
      (out = [warning_invalid; error_missing] /\
       exists s, environ !! "TARGET_CHANNEL_ID" = Some s /\ py_int s = None)
      \/
      (out = [error_missing] /\
       forall s, environ !! "TARGET_CHANNEL_ID" = Some s -> py_int s <> None)
  end.
Proof.
  destruct (main environ) as [out|g out] eqn:Hmain.
  - rewrite main_unfold in Hmain. simpl in Hmain.
    destruct (_ && _ && _ && _); [done|]. injection Hmain as <-.
    destruct (read_globals_fields environ) as (_ & _ & _ & _ & ->).
    unfold read_target_channel_id.
    destruct (environ !! "TARGET_CHANNEL_ID") as [s|]; [|by right].
    destruct (py_int s) as [n|] eqn:Hp; simpl.
    + right. split; [done|]. intros s' [= <-]. by rewrite Hp.
    + left. split; [done|]. by exists s.
  - apply running_spec in Hmain.
    by destruct Hmain as (? & ? & ? & ? & ? & ? & ? & ? & ? & ? & ? & ?
                          & ? & ? & ? & ?).
Qed.

(** X16. A variable set to the empty string counts as missing: the
    start-up exits with the error. *)
Theorem blank_value_exits (environ : gmap string string) :
  environ !! "DISCORD_TOKEN" = Some EmptyString \/
  environ !! "WEBHOOK_URL" = Some EmptyString \/
  environ !! "DEEPL_API_KEY" = Some EmptyString \/
  environ !! "TARGET_CHANNEL_ID" = Some EmptyString ->
  main environ = Exited ((read_globals environ).2 ++ [error_missing]).
Proof.
  intros H. rewrite main_unfold. simpl.
  destruct (_ && _ && _ && _) eqn:Hall; [|done]. exfalso.
  assert (Hrun : main environ =
    Running (read_globals environ).1 (read_globals environ).2).
  { rewrite main_unfold. simpl. by rewrite Hall. }
  apply running_spec in Hrun
    as (t & u & k & s & n & Et & ? & Eu & ? & Ek & ? & Es & Ep & ? & _).
  destruct H as [H|[H|[H|H]]]; by simplify_eq.
Qed.

(** ** Decimal numerals are read back by [py_int] *)













(** * Start-up and handler together *)

Lemma acts_only_if_accepted {W : Type} (svc : services W) g m w :
  trace_of svc g m w <> [] -> accepted g m.
Proof. intros Hne. by destruct (on_message_run svc g m w). Qed.

Lemma from_url_argument {W : Type} (svc : services W) g m w u r :
  EvWebhookFromUrl u r ∈ trace_of svc g m w -> u = WEBHOOK_URL g.
Proof.
  intros Hin.
  destruct (on_message_run svc g m w); in_trace Hin; by simplify_eq.
Qed.

(** X18. In a client that runs, the handler acts only on messages of
    the channel TARGET_CHANNEL_ID names, which is never channel 0, and
    the webhook is built from the non-empty string WEBHOOK_URL holds:
    the trace is what the services were asked, and each construction
    in it is asked with that string. *)
Theorem running_handler_uses_configuration {W : Type} (svc : services W)
    (environ : gmap string string) (g : globals) (out : list string)
    (m : message) (w : W) :
  main environ = Running g out ->
  performs svc w (trace_of svc g m w) (world_of svc g m w) /\
  (trace_of svc g m w <> [] ->
   channel_id m <> 0 /\
   exists s, environ !! "TARGET_CHANNEL_ID" = Some s /\
             py_int s = Some (channel_id m)) /\
  (forall u r, EvWebhookFromUrl u r ∈ trace_of svc g m w ->
   exists s, u = Some s /\ s <> EmptyString /\
             environ !! "WEBHOOK_URL" = Some s).
Proof.
  intros Hrun. split; [asked_by_unfolding svc g m w|].
  apply running_spec in Hrun
    as (t & u & k & s & n & Et & ? & Eu & ? & Ek & ? & Es & Ep & ?
        & -> & _).
  split.
  - intros [Hc _]%acts_only_if_accepted.
    simpl in Hc. rewrite Hc. split; [done|]. by exists s.
  - intros u' r ->%from_url_argument. by exists u.
Qed.

(** * The further properties at work on the sample inputs *)

Lemma silent_return_means_done_witness :
  result_of (scripted both_fetched) sample_globals with_files
    (on_get both_fetched) = Ok tt /\
  none is_print
    (trace_of (scripted both_fetched) sample_globals with_files
       (on_get both_fetched)) /\
  exists e,
    EvWebhookSend e (Ok tt)
      ∈ trace_of (scripted both_fetched) sample_globals with_files
          (on_get both_fetched) /\
    file_name <$> env_files e = ["chart.png"; "notes.txt"].
Proof.
  split; [reflexivity|]. split; [reflexivity|].
  destruct (silent_return_means_done (scripted both_fetched) sample_globals
              with_files (on_get both_fetched))
    as [_ [H|[H|(e & Hs & _ & Hf)]]]; [reflexivity|reflexivity|..].
  - vm_compute in H. discriminate H.
  - vm_compute in H. discriminate H.
  - by exists e.
Defined.

Lemma every_attachment_reposted_or_logged_witness :
  EvWebhookSend (repost with_files "Hello world" [File png "chart.png"])
    (Ok tt)
    ∈ trace_of (scripted all_fine) sample_globals with_files
        (on_get all_fine) /\
  (1 + length (List.filter is_print
                 (trace_of (scripted all_fine) sample_globals with_files
                    (on_get all_fine))))%nat = 2%nat.
Proof.
  assert (H : EvWebhookSend
                (repost with_files "Hello world" [File png "chart.png"])
                (Ok tt)
    ∈ trace_of (scripted all_fine) sample_globals with_files
        (on_get all_fine)) by here.
  split; [exact H|].
  exact (proj2 (every_attachment_reposted_or_logged (scripted all_fine)
                  sample_globals with_files (on_get all_fine) _ H)).
Defined.

Lemma final_content_read_back_witness :
  single_line "Hello world" = true /\
  final_content "Hello world" "Bonjour le monde" =
    "Hello world" +:+ newline +:+ "-# [Original] Bonjour le monde" /\
  "Hello world" = "Hello world" /\
  "Bonjour le monde" = "Bonjour le monde".
Proof.
  split; [reflexivity|]. split; [reflexivity|].
  apply (final_content_read_back "Hello world" "Bonjour le monde"
           "Hello world" "Bonjour le monde"); reflexivity.
Defined.

Lemma blank_value_exits_witness :
  blank_webhook_url !! "WEBHOOK_URL" = Some EmptyString /\
  main blank_webhook_url = Exited [error_missing].
Proof.
  split; [reflexivity|].
  apply (blank_value_exits blank_webhook_url). right. left. reflexivity.
Defined.


Lemma running_handler_uses_configuration_witness :
  main full_environ = Running sample_globals [] /\
  trace_of (scripted all_fine) sample_globals bonjour [] <> [] /\
  channel_id bonjour <> 0 /\
  exists s, full_environ !! "TARGET_CHANNEL_ID" = Some s /\
            py_int s = Some (channel_id bonjour).
Proof.
  split; [reflexivity|]. split; [discriminate|].
  destruct (running_handler_uses_configuration (scripted all_fine)
              full_environ sample_globals [] bonjour [] eq_refl)
    as (_ & Hc & _).
  apply Hc. discriminate.
Defined.
